(** * website-monitor: a shallow embedding of [monitor.py]

    The program polls a set of web pages, compares the text of each page
    with the snapshot kept in a two-column SQLite table and sends an email
    when the text changed.

    Modelling conventions.
    - A Python [str] is a [string]; a value that may be [None] is an
      [option].  Characters are the 8-bit characters of [string]; the
      non-ASCII glyphs of the mail template appear as their UTF-8 bytes.
    - A Python [dict] keyed by URL is a [gmap string _]: equality of
      [gmap]s is equality of their key/value pairs, as [==] on dicts.
    - Effects are explicit.  Every function that logs, talks to the
      network or may raise lives in the monad [M]: the list of events it
      produced together with either its return value or the exception
      that left it.
    - The outside world (what the network answers, what the mail relay
      answers, what the clock shows, how [html.parser] reads a body) is a
      record [world] passed to the functions that consult it.
    - The third-party calls are modelled by their documented behaviour:
      [requests.get] raises members of the [requests] exception
      hierarchy, [EmailMessage] is the record of the values assigned to
      it (the header validation and line-ending normalisation of the
      [email] package are outside the model), BeautifulSoup's [find] and
      [get_text] walk the parse tree in document order. *)

From Stdlib Require Import ZArith Ascii String.
From stdpp Require Import gmap strings list fin_maps pretty.

Open Scope Z_scope.

(** * Python values *)

Module Py.

(** [s[:n]] on a [str]: the first [n] characters, or all of [s] when it is
    shorter. *)
Fixpoint slice_to (n : nat) (s : string) : string :=
  match n, s with
  | S n', String c s' => String c (slice_to n' s')
  | _, _ => EmptyString
  end.

(** Truthiness of a [str]-or-[None] value: [None] and the empty string
    are falsy. *)
Definition truthy (v : option string) : bool :=
  match v with
  | None => false
  | Some EmptyString => false
  | Some (String _ _) => true
  end.

(** [str.isspace] on the characters below 128: TAB, LF, VT, FF, CR, the
    four separators FS..US and the blank. *)
Definition isspace (c : ascii) : bool :=
  let n := nat_of_ascii c in
  ((9 <=? n)%nat && (n <=? 13)%nat) || ((28 <=? n)%nat && (n <=? 32)%nat).

Fixpoint lstrip (s : string) : string :=
  match s with
  | String c s' => if isspace c then lstrip s' else s
  | EmptyString => EmptyString
  end.

(** [rstrip] drops the longest all-blank suffix: a character is kept when
    it is not blank or when something is kept after it. *)
Fixpoint rstrip (s : string) : string :=
  match s with
  | EmptyString => EmptyString
  | String c s' =>
      match rstrip s' with
      | EmptyString => if isspace c then EmptyString else String c EmptyString
      | r => String c r
      end
  end.

Definition strip (s : string) : string := rstrip (lstrip s).

(** ** Exceptions

    The classes the program can meet, with their direct bases.  An
    [except C] clause catches an exception whose class has [C] among its
    ancestors. *)
Inductive exn_class : Type :=
| BaseException | KeyboardInterrupt | Exception | OSError | ValueError
| TypeError | TimeoutError | gaierror | ssl_SSLError
(* requests.exceptions *)
| RequestException | HTTPError | ConnectionError | SSLError | ProxyError
| RequestsTimeout | ConnectTimeout | ReadTimeout | TooManyRedirects
| MissingSchema | InvalidSchema | InvalidURL | ChunkedEncodingError
(* smtplib *)
| SMTPException | SMTPServerDisconnected | SMTPResponseException
| SMTPAuthenticationError | SMTPConnectError | SMTPSenderRefused
| SMTPRecipientsRefused | SMTPDataError
(* sqlite3 *)
| sqlite3_Error | sqlite3_DatabaseError | sqlite3_OperationalError
| sqlite3_IntegrityError.

#[global] Instance exn_class_eq_dec : EqDecision exn_class.
Proof. solve_decision. Defined.

Definition bases (c : exn_class) : list exn_class :=
  match c with
  | BaseException => []
  | KeyboardInterrupt => [BaseException]
  | Exception => [BaseException]
  | OSError | ValueError | TypeError => [Exception]
  | TimeoutError | gaierror | ssl_SSLError => [OSError]
  | RequestException => [OSError]
  | HTTPError | ConnectionError | RequestsTimeout | TooManyRedirects
  | ChunkedEncodingError => [RequestException]
  | SSLError | ProxyError => [ConnectionError]
  | ConnectTimeout => [ConnectionError; RequestsTimeout]
  | ReadTimeout => [RequestsTimeout]
  | MissingSchema | InvalidSchema | InvalidURL => [RequestException; ValueError]
  | SMTPException => [OSError]
  | SMTPServerDisconnected | SMTPResponseException | SMTPRecipientsRefused =>
      [SMTPException]
  | SMTPAuthenticationError | SMTPConnectError | SMTPSenderRefused
  | SMTPDataError => [SMTPResponseException]
  | sqlite3_Error => [Exception]
  | sqlite3_DatabaseError => [sqlite3_Error]
  | sqlite3_OperationalError | sqlite3_IntegrityError => [sqlite3_DatabaseError]
  end.

(** [issubclass c d], searching the bases to the given depth.  The
    hierarchy above is six levels deep. *)
Fixpoint issubclass_upto (depth : nat) (c d : exn_class) : bool :=
  bool_decide (c = d) ||
  match depth with
  | O => false
  | S k => existsb (fun b => issubclass_upto k b d) (bases c)
  end.

Definition issubclass : exn_class -> exn_class -> bool := issubclass_upto 6.

Record exception : Type := Exn { exn_cls : exn_class; exn_str : string }.

Definition isinstance (e : exception) (c : exn_class) : bool :=
  issubclass (exn_cls e) c.

(** The outcome of a call: a value, or an exception on its way up. *)
Inductive outcome (A : Type) : Type :=
| Return (a : A)
| Raise (e : exception).
Arguments Return {A} a.
Arguments Raise {A} e.

End Py.
Export Py.

(** * Events *)

Inductive level : Type := DEBUG | INFO | WARNING | ERROR.

#[global] Instance level_eq_dec : EqDecision level.
Proof. solve_decision. Defined.

(** The message built by [send_email]: the three headers and the text
    handed to [set_content]. *)
Record EmailMessage : Type := {
  Subject : string;
  From_ : string;
  To : string;
  body : string;
}.

#[global] Instance EmailMessage_eq_dec : EqDecision EmailMessage.
Proof. solve_decision. Defined.

(** What a run leaves behind, in program order.
    - [Log lv unit msg]: a call to [logging.<lv>] with text [msg]; [unit]
      is the URL of the per-URL unit of work that made the call, [None]
      for the coordinating loop.
    - [HttpGet url]: [requests.get(url, ...)] was issued.
    - [SmtpSession url msg delivered]: [send_email] opened its SMTP
      session for [msg], the notification about [url]; [delivered] tells
      whether [send_message] completed.
    - [DbReplace rows]: [save_websites] committed [rows] as the new table
      contents. *)
Inductive event : Type :=
| Log (lv : level) (unit : option string) (msg : string)
| HttpGet (url : string)
| SmtpSession (url : string) (msg : EmailMessage) (delivered : bool)
| DbReplace (rows : list (string * option string)).

(** The unit of work an event belongs to. *)
Definition event_unit (ev : event) : option string :=
  match ev with
  | Log _ u _ => u
  | HttpGet url => Some url
  | SmtpSession url _ _ => Some url
  | DbReplace _ => None
  end.

(** The events of one unit, in order. *)
Definition events_about (url : string) (t : list event) : list event :=
  filter (fun ev => event_unit ev = Some url) t.

(** The SMTP sessions opened for notifications about [url]: the message
    and whether it was delivered. *)
Definition notifications_of (url : string) (t : list event) : list (EmailMessage * bool) :=
  omap (fun ev =>
          match ev with
          | SmtpSession u msg delivered =>
              if bool_decide (u = url) then Some (msg, delivered) else None
          | _ => None
          end) t.

(** The table contents committed by [save_websites], in order. *)
Definition db_replaces (t : list event) : list (list (string * option string)) :=
  omap (fun ev =>
          match ev with
          | DbReplace rows => Some rows
          | _ => None
          end) t.

(** * The monad of effects *)

Definition M (A : Type) : Type := (list event * outcome A)%type.

Definition ret {A} (a : A) : M A := ([], Return a).

Definition bind {A B} (m : M A) (k : A -> M B) : M B :=
  match m with
  | (t, Return a) => let '(t', r) := k a in (t ++ t', r)
  | (t, Raise e) => (t, Raise e)
  end.

Definition emit (ev : event) : M unit := ([ev], Return tt).

Definition raise {A} (e : exception) : M A := ([], Raise e).

(** [try: body / except C as e: handler e]. *)
Definition try_except {A} (body : M A) (C : exn_class)
    (handler : exception -> M A) : M A :=
  match body with
  | (t, Return a) => (t, Return a)
  | (t, Raise e) =>
      if isinstance e C then let '(t', r) := handler e in (t ++ t', r)
      else (t, Raise e)
  end.

Notation "'do' x <- m ; k" := (bind m (fun x => k))
  (at level 10, x name, m at level 100, k at level 200,
   format "'[v' 'do'  x  <-  m ; '/' k ']'").
Notation "'run' m ; k" := (bind m (fun _ => k))
  (at level 10, m at level 100, k at level 200,
   format "'[v' 'run'  m ; '/' k ']'").

Definition trace {A} (m : M A) : list event := fst m.
Definition result {A} (m : M A) : outcome A := snd m.

(** * BeautifulSoup parse trees *)

Module Soup.

(** A parse tree: text, comments (and the other special strings that
    [get_text] skips), and tags.  Of a tag's attributes only [class]
    matters to the program; it is kept as bs4 keeps it, split at blanks. *)
#[warnings="-register-all"]
Inductive node : Type :=
| NavigableString (s : string)
| Comment (s : string)
| Tag (name : string) (class_ : list string) (children : list node).

(** [node.descendants]: every node below [n], in document order. *)
Fixpoint descendants (n : node) : list node :=
  match n with
  | Tag _ _ children =>
      (fix below (l : list node) : list node :=
         match l with
         | [] => []
         | c :: l' => c :: descendants c ++ below l'
         end) children
  | _ => []
  end.

(** Whether a [class] attribute value satisfies [class_=c]: one of its
    tokens is [c], or the tokens joined by blanks are [c]. *)
Definition class_matches (c : string) (tokens : list string) : bool :=
  existsb (String.eqb c) tokens || String.eqb (String.concat " " tokens) c.

(** The filter built from [find(name)] or [find(name, class_=c)]. *)
Definition matches (name : string) (cls : option string) (n : node) : bool :=
  match n with
  | Tag nm tokens _ =>
      String.eqb nm name &&
      match cls with
      | None => true
      | Some c => class_matches c tokens
      end
  | _ => false
  end.

(** [find_all(..., limit=1)]: walk the candidates, stop at the first hit. *)
Fixpoint first_hit (p : node -> bool) (l : list node) : option node :=
  match l with
  | [] => None
  | x :: l' => if p x then Some x else first_hit p l'
  end.

Definition find (name : string) (cls : option string) (n : node) : option node :=
  first_hit (matches name cls) (descendants n).

(** [_all_strings(strip=True)]: the text nodes below [n], each stripped,
    the empty ones dropped. *)
Fixpoint all_strings (l : list node) : list string :=
  match l with
  | [] => []
  | NavigableString s :: l' =>
      match Py.strip s with
      | EmptyString => all_strings l'
      | s' => s' :: all_strings l'
      end
  | _ :: l' => all_strings l'
  end.

(** [n.get_text(strip=True)]: the strings joined by the default separator,
    the empty string. *)
Definition get_text (n : node) : string :=
  String.concat EmptyString (all_strings (descendants n)).

(** [a or b] on two results of [find]: a tag is always truthy, so [a]
    wins whenever it is a tag. *)
Definition or_ (a b : option node) : option node :=
  match a with
  | Some _ => a
  | None => b
  end.

End Soup.

(** * The outside world *)

Record Response : Type := { status_code : Z; reason : string; text : string }.

(** What can go wrong below HTTP. *)
Inductive net_failure : Type :=
| DnsFailure | ConnectionRefused | ConnectTimedOut | ReadTimedOut
| TlsFailure | ProxyFailure | RedirectLoop | NoScheme | UnknownScheme
| MalformedUrl | BrokenBody.

Inductive net_outcome : Type :=
| NetFails (f : net_failure) (detail : string)
| NetReplies (r : Response).

(** What can go wrong between [SMTP_SSL(...)] and the end of the [with]
    block. *)
Inductive smtp_failure : Type :=
| RelayUnresolved | RelayTimedOut | RelayTlsFailure | RelayRejectedConnect
| AuthRejected | SenderRefused | RecipientsRefused | DataRejected
| RelayDisconnected.

Inductive smtp_outcome : Type :=
| Delivered
| SmtpFails (f : smtp_failure) (detail : string).

(** Where the storage engine gives up during [save_websites]. *)
Inductive storage_fault : Type :=
| FailsAtDelete | FailsAtInsert | FailsAtCommit.

Record world : Type := {
  network : string -> net_outcome;
  html_parser : string -> Soup.node;
  relay : EmailMessage -> smtp_outcome;
  strftime : string -> string;
  storage : option (storage_fault * string);
}.

(** [config.json]. *)
Record config : Type := {
  CHECK_INTERVAL : Z;
  EMAIL_FROM : string;
  EMAIL_TO : string;
  EMAIL_PASSWORD : string;
}.

(** The exception [requests] raises for each failure. *)
Definition requests_exception (f : net_failure) : exn_class :=
  match f with
  | DnsFailure | ConnectionRefused => ConnectionError
  | ConnectTimedOut => ConnectTimeout
  | ReadTimedOut => ReadTimeout
  | TlsFailure => SSLError
  | ProxyFailure => ProxyError
  | RedirectLoop => TooManyRedirects
  | NoScheme => MissingSchema
  | UnknownScheme => InvalidSchema
  | MalformedUrl => InvalidURL
  | BrokenBody => ChunkedEncodingError
  end.

(** The exception [smtplib] (or the socket layer below it) raises. *)
Definition smtplib_exception (f : smtp_failure) : exn_class :=
  match f with
  | RelayUnresolved => gaierror
  | RelayTimedOut => TimeoutError
  | RelayTlsFailure => ssl_SSLError
  | RelayRejectedConnect => SMTPConnectError
  | AuthRejected => SMTPAuthenticationError
  | SenderRefused => SMTPSenderRefused
  | RecipientsRefused => SMTPRecipientsRefused
  | DataRejected => SMTPDataError
  | RelayDisconnected => SMTPServerDisconnected
  end.

(** * The store: [websites.db] *)

(** The rows of table [websites (url TEXT PRIMARY KEY, content TEXT)], in
    insertion order; [content] may be NULL. *)
Abbreviation table := (list (string * option string)).

(** The database file: [None] while the table does not exist. *)
Abbreviation database := (option table).

(** A [dict] built from key/value pairs, by [dict(pairs)] or by a dict
    comprehension: pairs are entered left to right, a later pair
    replacing an earlier one with the same key. *)
Definition dict (pairs : list (string * option string)) : gmap string (option string) :=
  foldl (fun d kv => <[kv.1 := kv.2]> d) ∅ pairs.

(** [repr] of a content value and of a snapshot dict, as the debug
    messages print them (escape sequences are not reproduced). *)
Definition repr_content (v : option string) : string :=
  match v with
  | None => "None"
  | Some s => "'" +:+ s +:+ "'"
  end.

Definition repr_dict (d : gmap string (option string)) : string :=
  "{" +:+ String.concat ", "
            (map (fun kv => "'" +:+ kv.1 +:+ "': " +:+ repr_content kv.2)
                 (map_to_list d)) +:+ "}".

(** [CREATE TABLE IF NOT EXISTS websites ...], committed. *)
Definition init_db (db : database) : database :=
  match db with
  | None => Some []
  | Some t => Some t
  end.

Definition rows_of (db : database) : table := default [] db.

(** One [INSERT INTO websites (url, content) VALUES (?, ?)]: the primary
    key rejects a URL that is already in the table. *)
Definition sql_insert (row : string * option string) (t : table) : M table :=
  if bool_decide (row.1 ∈ t.*1)
  then raise (Exn sqlite3_IntegrityError "UNIQUE constraint failed: websites.url")
  else ret (t ++ [row]).

Fixpoint executemany (rows : list (string * option string)) (t : table) : M table :=
  match rows with
  | [] => ret t
  | row :: rows' => do t' <- sql_insert row t; executemany rows' t'
  end.

(** * The program *)

Section Program.

Context (cfg : config) (w : world).

Definition LF : string := String "010"%char EmptyString.

(** ** [load_websites] *)
Definition load_websites (db : database) : M (database * gmap string (option string)) :=
  let db := init_db db in
  let websites := dict (rows_of db) in
  run emit (Log DEBUG None ("Loaded websites: " +:+ repr_dict websites));
  ret (db, websites).

(** The storage engine failing at point [p] of [save_websites]. *)
Definition fault_at (p : storage_fault) : M unit :=
  match storage w with
  | Some (q, detail) =>
      match p, q with
      | FailsAtDelete, FailsAtDelete
      | FailsAtInsert, FailsAtInsert
      | FailsAtCommit, FailsAtCommit => raise (Exn sqlite3_OperationalError detail)
      | _, _ => ret tt
      end
  | None => ret tt
  end.

(** ** [save_websites]

    The statements run in one transaction on a fresh connection.  When
    one of them raises [sqlite3.Error] the handler logs it and the
    connection is closed without a commit, which rolls the transaction
    back: the table is as [init_db] left it. *)
Definition save_websites (websites : gmap string (option string))
    (db : database) : M database :=
  let db := init_db db in
  try_except
    (run fault_at FailsAtDelete;
     let t := [] in
     run emit (Log DEBUG None ("Saving websites: " +:+ repr_dict websites));
     run fault_at FailsAtInsert;
     do t <- executemany (map_to_list websites) t;
     run fault_at FailsAtCommit;
     run emit (DbReplace t);
     ret (Some t))
    sqlite3_Error
    (fun e =>
       run emit (Log ERROR None ("Database error in save_websites: " +:+ exn_str e));
       ret db).

(** ** [get_page_content] *)

Definition requests_get (url : string) : M Response :=
  run emit (HttpGet url);
  match network w url with
  | NetFails f detail => raise (Exn (requests_exception f) detail)
  | NetReplies r => ret r
  end.

(** [response.raise_for_status()]: a 4xx or 5xx status raises
    [HTTPError]. *)
Definition raise_for_status (url : string) (r : Response) : M unit :=
  if (400 <=? status_code r) && (status_code r <? 500) then
    raise (Exn HTTPError
             (pretty (status_code r) +:+ " Client Error: " +:+ reason r
              +:+ " for url: " +:+ url))
  else if (500 <=? status_code r) && (status_code r <? 600) then
    raise (Exn HTTPError
             (pretty (status_code r) +:+ " Server Error: " +:+ reason r
              +:+ " for url: " +:+ url))
  else ret tt.

Definition get_page_content (url : string) : M (option string) :=
  try_except
    (do response <- requests_get url;
     run raise_for_status url response;
     let soup := html_parser w (text response) in
     let main_content :=
       Soup.or_ (Soup.find "main" None soup)
         (Soup.or_ (Soup.find "div" (Some "content") soup)
                   (Soup.find "body" None soup)) in
     let content :=
       match main_content with
       | Some n => Soup.get_text n
       | None => EmptyString
       end in
     run emit (Log DEBUG (Some url) ("Fetched content for " +:+ url +:+ ": "
                              +:+ slice_to 200 content +:+ "..."));
     ret (Some content))
    RequestException
    (fun e =>
       run emit (Log ERROR (Some url) ("Error fetching " +:+ url +:+ ": " +:+ exn_str e));
       ret None).

(** ** [send_email] *)

(** [v[:n]] inside an f-string: [None] is not subscriptable. *)
Definition subscript_to (n : nat) (v : option string) : M string :=
  match v with
  | Some s => ret (slice_to n s)
  | None => raise (Exn TypeError "'NoneType' object is not subscriptable")
  end.

(** [with smtplib.SMTP_SSL("smtp.gmail.com", 465) as server:
       server.login(...); server.send_message(msg)]. *)
Definition smtp_deliver (url : string) (msg : EmailMessage) : M unit :=
  match relay w msg with
  | Delivered => emit (SmtpSession url msg true)
  | SmtpFails f detail =>
      run emit (SmtpSession url msg false);
      raise (Exn (smtplib_exception f) detail)
  end.

(** The [EmailMessage] of lines 103-122: the three headers, then the
    f-string given to [set_content], with the timestamp and the two
    sliced contents already evaluated. *)
Definition notification (url stamp old500 new500 : string) : EmailMessage :=
  {| Subject := "🌐 Website Change Detected: " +:+ url;
     From_ := EMAIL_FROM cfg;
     To := EMAIL_TO cfg;
     body :=
       LF +:+ "    🔔 **Website Update Alert**" +:+ LF
       +:+ "    -------------------------------" +:+ LF
       +:+ "    🖥 **Website:** " +:+ url +:+ LF
       +:+ "    " +:+ LF
       +:+ "    🕒 **Detected Change at:** " +:+ stamp +:+ LF
       +:+ "    " +:+ LF
       +:+ "    📜 **Old Content (First 500 chars):**" +:+ LF
       +:+ "    " +:+ old500 +:+ "..." +:+ LF
       +:+ "    " +:+ LF
       +:+ "    🆕 **New Content (First 500 chars):**" +:+ LF
       +:+ "    " +:+ new500 +:+ "..." +:+ LF
       +:+ "    " +:+ LF
       +:+ "    📌 Check the website for full details: " +:+ url +:+ LF
       +:+ "    " |}.

Definition send_email (url : string) (old_content new_content : option string) : M unit :=
  let stamp := strftime w url in
  do old500 <- subscript_to 500 old_content;
  do new500 <- subscript_to 500 new_content;
  let msg := notification url stamp old500 new500 in
  try_except
    (run smtp_deliver url msg;
     emit (Log INFO (Some url) ("Email sent for " +:+ url)))
    Exception
    (fun e =>
       emit (Log ERROR (Some url) ("Failed to send email for " +:+ url +:+ ": "
                                   +:+ exn_str e))).

(** ** [monitor_website] *)
Definition monitor_website (url : string) (old_content : option string)
    : M (string * option string) :=
  do new_content <- get_page_content url;
  match new_content with
  | None =>
      run emit (Log WARNING (Some url) ("Failed to fetch content for " +:+ url
                                 +:+ ". Skipping."));
      ret (url, old_content)
  | Some _ =>
      if negb (truthy old_content) then
        run emit (Log INFO (Some url) ("First-time monitoring for " +:+ url
                                +:+ ". Saving initial content."));
        ret (url, new_content)
      else if bool_decide (new_content ≠ old_content) then
        run emit (Log INFO (Some url) ("Change detected on " +:+ url));
        run send_email url old_content new_content;
        ret (url, new_content)
      else ret (url, old_content)
  end.

(** ** [monitor_websites]: one turn of the loop *)

(** [executor.map(f, items)] followed by the consumption of its results:
    every unit runs; the results come back in the order of [items], and
    the first unit that raised raises again when its result is reached.
    The events of the units are listed unit after unit. *)
Fixpoint executor_map {A B} (f : A -> M B) (items : list A) : M (list B) :=
  match items with
  | [] => ret []
  | x :: items' =>
      let '(t1, r1) := f x in
      let '(t2, r2) := executor_map f items' in
      (t1 ++ t2,
       match r1, r2 with
       | Raise e, _ => Raise e
       | Return _, Raise e => Raise e
       | Return b, Return bs => Return (b :: bs)
       end)
  end.

(** The mapping a turn hands to [save_websites]. *)
Definition updated_websites (websites : gmap string (option string))
    : M (gmap string (option string)) :=
  do results <- executor_map (fun item => monitor_website item.1 item.2)
                             (map_to_list websites);
  ret (dict results).

Definition monitor_cycle (db : database) : M database :=
  run emit (Log INFO None "Starting monitoring loop...");
  do loaded <- load_websites db;
  do updated <- updated_websites loaded.2;
  do db' <- save_websites updated loaded.1;
  run emit (Log INFO None ("Check completed. Next run in "
                         +:+ pretty (CHECK_INTERVAL cfg) +:+ " seconds."));
  ret db'.

End Program.



(** * Sample data *)

Module Sample.

Definition cfg : config :=
  {| CHECK_INTERVAL := 60;
     EMAIL_FROM := "monitor@a.example";
     EMAIL_TO := "owner@a.example";
     EMAIL_PASSWORD := "secret" |}.

Definition page (body_children : list Soup.node) : Soup.node :=
  Soup.Tag "[document]" []
    [Soup.Tag "html" []
       [Soup.Tag "head" [] [Soup.Tag "title" [] [Soup.NavigableString "t"]];
        Soup.Tag "body" [] body_children]].

(** A parser that knows four bodies. *)
Definition parser (markup : string) : Soup.node :=
  if String.eqb markup "<p>Hello</p>" then
    page [Soup.Tag "p" [] [Soup.NavigableString "Hello"]]
  else if String.eqb markup "<p>World</p>" then
    page [Soup.Tag "p" [] [Soup.NavigableString "World"]]
  else if String.eqb markup "<p>Welcome</p>" then
    page [Soup.Tag "p" [] [Soup.NavigableString "Welcome"]]
  else if String.eqb markup "<div class=content> a <!--x--><b>b </b></div><main>m</main>" then
    page [Soup.Tag "div" ["content"]
            [Soup.NavigableString " a "; Soup.Comment "x";
             Soup.Tag "b" [] [Soup.NavigableString "b "]];
          Soup.Tag "main" [] [Soup.NavigableString "m"]]
  else Soup.Tag "[document]" [] [].

Definition ok (markup : string) : net_outcome :=
  NetReplies {| status_code := 200; reason := "OK"; text := markup |}.

(** Site [a] serves [a_markup]; site [b] times out; site [c] answers 404;
    every other name does not resolve. *)
Definition net (a_markup : string) (url : string) : net_outcome :=
  if String.eqb url "https://a.example" then ok a_markup
  else if String.eqb url "https://b.example" then NetFails ReadTimedOut "Read timed out."
  else if String.eqb url "https://c.example" then
    NetReplies {| status_code := 404; reason := "Not Found"; text := "gone" |}
  else NetFails DnsFailure "Name or service not known".

Definition the_world (a_markup : string) (r : smtp_outcome) : world :=
  {| network := net a_markup;
     html_parser := parser;
     relay := fun _ => r;
     strftime := fun _ => "2024-01-01 00:00:00";
     storage := None |}.

Definition site_a : string := "https://a.example".
Definition site_b : string := "https://b.example".
Definition site_c : string := "https://c.example".

(** The relay rejecting the credentials. *)
Definition auth_rejected : smtp_outcome :=
  SmtpFails AuthRejected "(535, b'5.7.8 Username and Password not accepted')".

(** A world whose storage engine finds the database locked at commit. *)
Definition locked_world : world :=
  {| network := net "<p>Hello</p>";
     html_parser := parser;
     relay := fun _ => Delivered;
     strftime := fun _ => "2024-01-01 00:00:00";
     storage := Some (FailsAtCommit, "database is locked") |}.

Definition region_markup : string :=
  "<div class=content> a <!--x--><b>b </b></div><main>m</main>".


End Sample.

(** * Vocabulary of the specification *)

(** The fetch of [url] fails below HTTP (timeout, DNS, TLS, ...) or with
    a 4xx/5xx status. *)
Definition fetch_fails (w : world) (url : string) : bool :=
  match network w url with
  | NetFails _ _ => true
  | NetReplies r => (400 <=? status_code r) && (status_code r <? 600)
  end.

(** What the fetcher hands back for [url]: [Some text] for a page, [None]
    for the failure marker.  (The fetcher always returns, see
    [get_page_content_returns].) *)
Definition fetched (w : world) (url : string) : option string :=
  match result (get_page_content w url) with
  | Return v => v
  | Raise _ => None
  end.

(** The decision table of the monitor loop, steps 2 to 5: the snapshot
    kept for a URL given its stored snapshot and what was fetched. *)
Definition snapshot_after (old_content fetched_content : option string)
    : option string :=
  match fetched_content with
  | None => old_content
  | Some new =>
      match old_content with
      | None | Some EmptyString => Some new
      | Some old => if String.eqb new old then Some old else Some new
      end
  end.

(** The snapshots after one turn of the loop over [websites]. *)
Definition next_snapshots (w : world) (websites : gmap string (option string))
    : gmap string (option string) :=
  map_imap (fun url old => Some (snapshot_after old (fetched w url))) websites.

(** A change is detected when there is a non-empty stored snapshot, the
    fetch gave a page, and the two differ: the pair (old, new). *)
Definition change_detected (old_content fetched_content : option string)
    : option (string * string) :=
  match old_content, fetched_content with
  | Some (String c old'), Some new =>
      if String.eqb new (String c old') then None else Some (String c old', new)
  | _, _ => None
  end.

(** Whether the relay of [w] accepts [msg]. *)
Definition delivers (w : world) (msg : EmailMessage) : bool :=
  match relay w msg with
  | Delivered => true
  | SmtpFails _ _ => false
  end.

(** The notification a detected change calls for. *)
Definition expected_notifications (cfg : config) (w : world) (url : string)
    (old_content v : option string) : list (EmailMessage * bool) :=
  match change_detected old_content v with
  | Some (old, new) =>
      let msg := notification cfg url (strftime w url)
                   (slice_to 500 old) (slice_to 500 new) in
      [(msg, delivers w msg)]
  | None => []
  end.

(** The world [w] with the network answering [o] for [url]. *)
Definition with_network (w : world) (url : string) (o : net_outcome) : world :=
  {| network := fun u => if String.eqb u url then o else network w u;
     html_parser := html_parser w;
     relay := relay w;
     strftime := strftime w;
     storage := storage w |}.

(** The world [w] with the mail relay answering [o] for the message
    [msg]. *)
Definition with_relay_answer (w : world) (msg : EmailMessage) (o : smtp_outcome)
    : world :=
  {| network := network w;
     html_parser := html_parser w;
     relay := fun m => if bool_decide (m = msg) then o else relay w m;
     strftime := strftime w;
     storage := storage w |}.

(** ** Strings *)


(** The string is made of whitespace only. *)
Fixpoint all_space (s : string) : bool :=
  match s with
  | EmptyString => true
  | String c s' => isspace c && all_space s'
  end.

(** The first and the last character of a string, if any. *)
Definition first_char (s : string) : option ascii :=
  match s with
  | EmptyString => None
  | String c _ => Some c
  end.



(** ** Regions of a document, in the words of the specification *)

Module Region.

Import Soup.











End Region.

(** * The log file and further vocabulary *)

(** ** [setup_logging]

    Of the log file the program looks only at whether it exists and how
    many bytes it holds: [None] is a missing file, [Some size] a file of
    [size] bytes. *)
Definition log_limit : N := (1 * 1024 * 1024)%N.

(** A file above the limit is opened for writing, which empties it; then
    [logging.basicConfig(filename=...)] opens the file for appending,
    which creates it when it is missing. *)
Definition setup_logging (log_file : option N) : option N :=
  let log_file :=
    match log_file with
    | Some size => if (log_limit <? size)%N then Some 0%N else Some size
    | None => None
    end in
  match log_file with
  | Some size => Some size
  | None => Some 0%N
  end.

(** The requests issued for [url], in order. *)
Definition requests_to (url : string) (t : list event) : list string :=
  omap (fun ev =>
          match ev with
          | HttpGet u => if bool_decide (u = url) then Some u else None
          | _ => None
          end) t.

(** [n] times the character [c]. *)
Fixpoint repeat_char (n : nat) (c : ascii) : string :=
  match n with
  | O => EmptyString
  | S n' => String c (repeat_char n' c)
  end.

(** More sample data. *)
Module Probe.

Import Sample.

(** Five hundred characters shared by two long pages. *)
Definition shared_prefix : string := repeat_char 500 "x"%char.

(** A table that does not hold site a. *)
Definition other_table : database := Some [(site_b, Some "X")].

(** A world where site a serves markup the parser finds nothing in. *)
Definition blank_world : world := the_world "<!-- nothing -->" Delivered.

End Probe.

(** * Properties *)

(** ** Exceptions and handlers *)

Lemma requests_exception_caught (f : net_failure) :
  issubclass (requests_exception f) RequestException = true.
Proof. destruct f; reflexivity. Qed.

Lemma smtplib_exception_caught (f : smtp_failure) :
  issubclass (smtplib_exception f) Exception = true.
Proof. destruct f; reflexivity. Qed.

(** A handler for [RequestException] would let a [TypeError] through, and
    [except Exception] does not stop a [KeyboardInterrupt]. *)
Example handlers_are_selective :
  issubclass TypeError RequestException = false /\
  issubclass sqlite3_IntegrityError sqlite3_Error = true /\
  issubclass KeyboardInterrupt Exception = false.
Proof. repeat split. Qed.

(** Run the monadic plumbing of a goal, leaving the strings alone. *)
Ltac run_monad :=
  cbv beta iota zeta delta [bind emit ret raise try_except app trace result fst snd].

(** ** The page fetcher *)

Section Fetcher.

Context (w : world).

Lemma get_page_content_net_fails url f detail :
  network w url = NetFails f detail ->
  get_page_content w url =
    ([HttpGet url;
      Log ERROR (Some url) ("Error fetching " +:+ url +:+ ": " +:+ detail)],
     Return None).
Proof.
  intros Hnet. unfold get_page_content, requests_get. rewrite Hnet.
  unfold try_except, bind, emit, raise, isinstance. cbn [exn_cls exn_str].
  rewrite requests_exception_caught. reflexivity.
Qed.

Lemma get_page_content_status_fails url r :
  network w url = NetReplies r ->
  (400 <=? status_code r) && (status_code r <? 600) = true ->
  exists text,
    get_page_content w url =
      ([HttpGet url;
        Log ERROR (Some url) ("Error fetching " +:+ url +:+ ": " +:+ text)],
       Return None).
Proof.
  intros Hnet Hst. unfold get_page_content, requests_get, raise_for_status.
  rewrite Hnet. run_monad.
  destruct ((400 <=? status_code r) && (status_code r <? 500)) eqn:H4.
  - eexists. reflexivity.
  - assert ((500 <=? status_code r) && (status_code r <? 600) = true) as ->
      by (clear Hnet; lia).
    eexists. reflexivity.
Qed.

Lemma get_page_content_replies url r :
  network w url = NetReplies r ->
  (400 <=? status_code r) && (status_code r <? 600) = false ->
  exists content,
    get_page_content w url =
      ([HttpGet url;
        Log DEBUG (Some url) ("Fetched content for " +:+ url +:+ ": "
                              +:+ slice_to 200 content +:+ "...")],
       Return (Some content)) /\
    content =
      match Soup.or_ (Soup.find "main" None (html_parser w (text r)))
              (Soup.or_ (Soup.find "div" (Some "content") (html_parser w (text r)))
                        (Soup.find "body" None (html_parser w (text r)))) with
      | Some n => Soup.get_text n
      | None => EmptyString
      end.
Proof.
  intros Hnet Hst. unfold get_page_content, requests_get, raise_for_status.
  rewrite Hnet. run_monad.
  assert ((400 <=? status_code r) && (status_code r <? 500) = false) as ->
    by (clear Hnet; lia).
  assert ((500 <=? status_code r) && (status_code r <? 600) = false) as ->
    by (clear Hnet; lia).
  eexists. split; reflexivity.
Qed.

(** Whatever the network does, the fetcher returns, having issued one
    request and logged one line. *)
Lemma get_page_content_shape url :
  exists lv text v,
    get_page_content w url = ([HttpGet url; Log lv (Some url) text], Return v) /\
    (fetch_fails w url = true -> lv = ERROR /\ v = None) /\
    (fetch_fails w url = false -> lv = DEBUG /\ is_Some v).
Proof.
  unfold fetch_fails. destruct (network w url) as [f detail|r] eqn:Hnet.
  - exists ERROR. eexists. exists None. split.
    + exact (get_page_content_net_fails url f detail Hnet).
    + split; [done|discriminate].
  - destruct ((400 <=? status_code r) && (status_code r <? 600)) eqn:Hst.
    + destruct (get_page_content_status_fails url r Hnet Hst) as [text Hg].
      exists ERROR. eexists. exists None. split; [exact Hg|].
      split; [done|discriminate].
    + destruct (get_page_content_replies url r Hnet Hst) as [c [Hg _]].
      exists DEBUG. eexists. exists (Some c). split; [exact Hg|].
      split; [discriminate|]. split; [done|by eexists].
Qed.

End Fetcher.

(** ** The notifier *)

Section Notifier.

Context (cfg : config) (w : world).

(** With two strings at hand the notifier opens exactly one SMTP session
    and returns, whatever the relay answers. *)
Lemma send_email_shape url old new :
  exists lv text,
    send_email cfg w url (Some old) (Some new) =
      ([SmtpSession url
          (notification cfg url (strftime w url) (slice_to 500 old) (slice_to 500 new))
          (delivers w (notification cfg url (strftime w url)
                         (slice_to 500 old) (slice_to 500 new)));
        Log lv (Some url) text],
       Return tt).
Proof.
  unfold send_email, subscript_to, smtp_deliver, delivers. run_monad.
  destruct (relay w _) as [|f detail].
  - run_monad. eauto.
  - run_monad. unfold isinstance. cbn [exn_cls].
    rewrite smtplib_exception_caught. eauto.
Qed.

End Notifier.

(** ** One unit of work: [monitor_website] *)

Section Unit.

Context (cfg : config) (w : world).

Lemma get_page_content_returns url :
  result (get_page_content w url) = Return (fetched w url).
Proof.
  unfold fetched. destruct (get_page_content_shape w url) as (lv & text & v & -> & _).
  reflexivity.
Qed.

Lemma fetched_fails url : fetch_fails w url = true -> fetched w url = None.
Proof.
  intros Hf. unfold fetched.
  destruct (get_page_content_shape w url) as (lv & text & v & -> & Hfail & _).
  destruct (Hfail Hf) as [_ ->]. reflexivity.
Qed.

(** A unit never raises.  It returns its URL with the snapshot of the
    decision table; all its events carry its URL; it does not touch the
    store; it opens one SMTP session when a change is detected and none
    otherwise. *)
Lemma monitor_website_spec url old_content :
  exists t,
    monitor_website cfg w url old_content
      = (t, Return (url, snapshot_after old_content (fetched w url))) /\
    Forall (fun ev => event_unit ev = Some url) t /\
    db_replaces t = [] /\
    notifications_of url t
      = expected_notifications cfg w url old_content (fetched w url).
Proof.
  unfold fetched, expected_notifications, change_detected.
  destruct (get_page_content_shape w url) as (lv & text & v & Hg & _).
  rewrite Hg. cbn [result snd].
  unfold monitor_website. rewrite Hg. run_monad.
  destruct v as [new|].
  - destruct old_content as [[|c old]|]; cbn [truthy negb snapshot_after].
    + eexists. split; [reflexivity|]. repeat split; repeat constructor.
    + case_bool_decide as Hne.
      * destruct (send_email_shape cfg w url (String c old) new)
          as (lv' & text' & ->).
        assert (String.eqb new (String c old) = false) as ->
          by (apply String.eqb_neq; congruence).
        eexists. split; [reflexivity|]. split; [repeat constructor|].
        split; [reflexivity|].
        unfold notifications_of. cbn [omap list_omap option_bind mbind].
        rewrite bool_decide_eq_true_2 by done. reflexivity.
      * assert (String.eqb new (String c old) = true) as ->.
        { apply String.eqb_eq. congruence. }
        eexists. split; [reflexivity|]. repeat split; repeat constructor.
    + eexists. split; [reflexivity|]. repeat split; repeat constructor.
  - destruct old_content as [[|c old]|]; cbn [snapshot_after];
      (eexists; split; [reflexivity|]; repeat split; repeat constructor).
Qed.

End Unit.

(** ** Dictionaries built from pairs *)

Lemma dict_snoc (l : list (string * option string)) k v :
  dict (l ++ [(k, v)]) = <[k:=v]> (dict l).
Proof. unfold dict. by rewrite foldl_app. Qed.

Lemma dict_lookup_None (l : list (string * option string)) k :
  k ∉ l.*1 -> dict l !! k = None.
Proof.
  induction l as [|[k' v'] l IH] using rev_ind; intros Hk; [done|].
  rewrite fmap_app in Hk. apply not_elem_of_app in Hk as [Hl Hk'].
  rewrite dict_snoc, lookup_insert_ne; [by apply IH|].
  intros ->. apply Hk'. cbn. left.
Qed.

Lemma dict_lookup_Some (l : list (string * option string)) k v :
  NoDup l.*1 -> (k, v) ∈ l -> dict l !! k = Some v.
Proof.
  induction l as [|[k' v'] l IH] using rev_ind; intros Hnd Hin.
  - by apply elem_of_nil in Hin.
  - rewrite fmap_app in Hnd. apply NoDup_app in Hnd as (Hnd & Hfresh & _).
    rewrite dict_snoc. apply elem_of_app in Hin as [Hin|Hin].
    + rewrite lookup_insert_ne; [by apply IH|].
      intros ->. apply (Hfresh k); [|cbn; left].
      by apply (list_elem_of_fmap_2 fst _ (k, v)).
    + apply list_elem_of_singleton in Hin as [= -> ->]. apply lookup_insert_eq.
Qed.

(** The items of a dict rebuild it. *)
Lemma dict_map_to_list (m : gmap string (option string)) :
  dict (map_to_list m) = m.
Proof.
  apply map_eq. intros k. destruct (m !! k) as [v|] eqn:Hk.
  - apply dict_lookup_Some; [apply NoDup_fst_map_to_list|].
    by apply elem_of_map_to_list.
  - apply dict_lookup_None. intros Hin.
    apply list_elem_of_fmap in Hin as ([k' v'] & Heq & Hin).
    cbn in Heq. subst k'.
    apply elem_of_map_to_list in Hin. congruence.
Qed.

(** ** The worker pool *)

Lemma executor_map_returns {A B} (f : A -> M B) (g : A -> B) (items : list A) :
  (forall x, x ∈ items -> result (f x) = Return (g x)) ->
  executor_map f items = (items ≫= (fun x => trace (f x)), Return (g <$> items)).
Proof.
  induction items as [|x items IH]; intros Hret; [reflexivity|].
  cbn [executor_map]. rewrite IH by (intros y Hy; apply Hret; by right).
  rewrite bind_cons, fmap_cons.
  specialize (Hret x ltac:(left)). destruct (f x) as [t r]. cbn in Hret. subst r.
  reflexivity.
Qed.

Lemma events_about_own url (t : list event) :
  Forall (fun ev => event_unit ev = Some url) t -> events_about url t = t.
Proof.
  unfold events_about. induction 1 as [|ev t Hev _ IH]; [done|].
  rewrite filter_cons_True by done. by rewrite IH.
Qed.

Lemma events_about_other url url' (t : list event) :
  url' <> url ->
  Forall (fun ev => event_unit ev = Some url') t -> events_about url t = [].
Proof.
  intros Hne. unfold events_about. induction 1 as [|ev t Hev _ IH]; [done|].
  rewrite filter_cons_False; [done|]. rewrite Hev. congruence.
Qed.

Lemma events_about_app url (t1 t2 : list event) :
  events_about url (t1 ++ t2) = events_about url t1 ++ events_about url t2.
Proof. apply filter_app. Qed.

Lemma notifications_of_app url (t1 t2 : list event) :
  notifications_of url (t1 ++ t2) = notifications_of url t1 ++ notifications_of url t2.
Proof. apply omap_app. Qed.

Lemma db_replaces_app (t1 t2 : list event) :
  db_replaces (t1 ++ t2) = db_replaces t1 ++ db_replaces t2.
Proof. apply omap_app. Qed.

(** Notifications about [url] are events of the unit of [url]. *)
Lemma notifications_of_about url (t : list event) :
  notifications_of url (events_about url t) = notifications_of url t.
Proof.
  unfold notifications_of, events_about. induction t as [|ev t IH]; [done|].
  destruct (decide (event_unit ev = Some url)) as [Hu|Hu].
  - rewrite filter_cons_True by done. cbn. by rewrite IH.
  - rewrite filter_cons_False by done. rewrite IH. cbn.
    destruct ev as [| |u msg d|]; try done.
    rewrite bool_decide_eq_false_2; [done|]. cbn in Hu. congruence.
Qed.

(** Units tagged by distinct keys: the events about a key are those of
    its unit. *)
Lemma events_about_units (tr : string * option string -> list event)
    (l : list (string * option string)) url :
  (forall it, it ∈ l -> Forall (fun ev => event_unit ev = Some it.1) (tr it)) ->
  NoDup l.*1 ->
  events_about url (l ≫= tr) =
    match dict l !! url with
    | Some v => tr (url, v)
    | None => []
    end.
Proof.
  intros Htag Hnd.
  assert (forall l', (forall it, it ∈ l' -> it ∈ l) -> url ∉ l'.*1 ->
                     events_about url (l' ≫= tr) = []) as Hnone.
  { induction l' as [|it l' IH]; intros Hsub Hfresh; [done|].
    rewrite bind_cons, events_about_app. cbn in Hfresh.
    apply not_elem_of_cons in Hfresh as [Hne Hfresh].
    rewrite (events_about_other url it.1 (tr it));
      [|congruence|apply Htag, Hsub; left].
    apply IH; [|done]. intros it' Hit'. apply Hsub. by right. }
  destruct (dict l !! url) as [v|] eqn:Hd.
  - revert Htag Hnd Hd Hnone. intros Htag Hnd Hd Hnone.
    assert ((url, v) ∈ l) as Hin.
    { destruct (decide (url ∈ l.*1)) as [Hk|Hk].
      - apply list_elem_of_fmap in Hk as ([k' v'] & Heq & Hin).
        cbn in Heq. subst k'.
        rewrite (dict_lookup_Some l url v' Hnd Hin) in Hd. congruence.
      - rewrite dict_lookup_None in Hd by done. discriminate. }
    apply list_elem_of_split in Hin as (l1 & l2 & ->).
    rewrite fmap_app in Hnd. cbn in Hnd.
    apply NoDup_app in Hnd as (_ & Hfresh1 & Hnd2).
    apply NoDup_cons in Hnd2 as [Hfresh2 _].
    rewrite bind_app, bind_cons, !events_about_app.
    rewrite (Hnone l1), (Hnone l2).
    + rewrite app_nil_r. cbn. apply events_about_own.
      apply (Htag (url, v)). apply elem_of_app. right. left.
    + intros it Hit. apply elem_of_app. right. by right.
    + done.
    + intros it Hit. apply elem_of_app. by left.
    + intros Hk. apply (Hfresh1 url Hk). left.
  - apply Hnone; [done|]. intros Hk.
    apply list_elem_of_fmap in Hk as ([k' v'] & Heq & Hin).
    cbn in Heq. subst k'.
    rewrite (dict_lookup_Some l url v' Hnd Hin) in Hd. discriminate.
Qed.

(** ** The store *)

(** Rows with fresh, pairwise distinct keys are all inserted, in order. *)
Lemma executemany_distinct (rows t : table) :
  NoDup (t ++ rows).*1 -> executemany rows t = ([], Return (t ++ rows)).
Proof.
  revert t. induction rows as [|row rows IH]; intros t Hnd.
  - by rewrite app_nil_r.
  - cbn [executemany]. unfold sql_insert.
    rewrite bool_decide_eq_false_2.
    + run_monad. rewrite IH by (by rewrite <- app_assoc).
      by rewrite <- app_assoc.
    + rewrite fmap_app in Hnd. apply NoDup_app in Hnd as (_ & Hfresh & _).
      intros Hin. apply (Hfresh _ Hin). cbn. left.
Qed.

Lemma executemany_items (m : gmap string (option string)) :
  executemany (map_to_list m) [] = ([], Return (map_to_list m)).
Proof. apply (executemany_distinct _ []). apply NoDup_fst_map_to_list. Qed.

Lemma init_db_rows (db : database) : rows_of (init_db db) = rows_of db.
Proof. by destruct db. Qed.

Lemma init_db_idemp (db : database) : init_db (init_db db) = init_db db.
Proof. by destruct db. Qed.

Section Store.

Context (w : world).

(** Without a storage fault the table becomes the items of the mapping,
    committed once. *)
Lemma save_websites_sound (websites : gmap string (option string)) (db : database) :
  storage w = None ->
  save_websites w websites db =
    ([Log DEBUG None ("Saving websites: " +:+ repr_dict websites);
      DbReplace (map_to_list websites)],
     Return (Some (map_to_list websites))).
Proof.
  intros Hst. unfold save_websites, fault_at. rewrite Hst, executemany_items.
  reflexivity.
Qed.

(** With a storage fault nothing is committed: the error is logged and
    the table is the one [init_db] found or created. *)
Lemma save_websites_fault (websites : gmap string (option string)) (db : database)
    p detail :
  storage w = Some (p, detail) ->
  exists t,
    save_websites w websites db = (t, Return (init_db db)) /\
    db_replaces t = [] /\
    Log ERROR None ("Database error in save_websites: " +:+ detail) ∈ t.
Proof.
  intros Hst. unfold save_websites, fault_at. rewrite Hst, executemany_items.
  destruct p; run_monad; cbn [isinstance exn_cls exn_str];
    (eexists; split; [reflexivity|]; split; [reflexivity|]).
  - left.
  - right. left.
  - right. left.
Qed.

(** [save_websites] never raises and sends no mail. *)
Lemma save_websites_returns (websites : gmap string (option string)) (db : database) :
  exists t db',
    save_websites w websites db = (t, Return db') /\
    Forall (fun ev => event_unit ev = None) t.
Proof.
  destruct (storage w) as [[p detail]|] eqn:Hst.
  - unfold save_websites, fault_at. rewrite Hst, executemany_items.
    destruct p; run_monad; cbn [isinstance exn_cls exn_str];
      (do 2 eexists; split; [reflexivity|]; repeat constructor).
  - rewrite save_websites_sound by done.
    do 2 eexists. split; [reflexivity|]. repeat constructor.
Qed.

End Store.

(** ** One turn of the loop *)

Section Cycle.

Context (cfg : config) (w : world).

Lemma events_of_loop_about url (t : list event) :
  Forall (fun ev => event_unit ev = None) t -> events_about url t = [].
Proof.
  unfold events_about. induction 1 as [|ev t Hev _ IH]; [done|].
  rewrite filter_cons_False; [done|]. by rewrite Hev.
Qed.

Lemma db_replaces_units (tr : string * option string -> list event)
    (l : list (string * option string)) :
  (forall it, it ∈ l -> db_replaces (tr it) = []) -> db_replaces (l ≫= tr) = [].
Proof.
  induction l as [|it l IH]; intros Hno; [done|].
  rewrite bind_cons, db_replaces_app, Hno by left. cbn.
  apply IH. intros it' Hit'. apply Hno. by right.
Qed.

(** The units of a turn never raise.  The mapping handed to
    [save_websites] holds, for each stored URL, the snapshot of the
    decision table; the store is not written meanwhile; and the events
    about a URL are exactly those of its own unit. *)
Lemma updated_websites_spec (websites : gmap string (option string)) :
  exists t,
    updated_websites cfg w websites = (t, Return (next_snapshots w websites)) /\
    db_replaces t = [] /\
    forall url,
      events_about url t =
        match websites !! url with
        | Some old => trace (monitor_website cfg w url old)
        | None => []
        end.
Proof.
  unfold updated_websites.
  rewrite (executor_map_returns _
             (fun it => (it.1, snapshot_after it.2 (fetched w it.1)))).
  2:{ intros [url old] _. cbn.
      destruct (monitor_website_spec cfg w url old) as (t & -> & _). done. }
  unfold bind, ret. rewrite app_nil_r. eexists. split; [|split].
  - do 2 f_equal.
    apply map_eq. intros url. unfold next_snapshots.
    rewrite map_lookup_imap. destruct (websites !! url) as [old|] eqn:Hk; cbn.
    + apply dict_lookup_Some.
      * rewrite <- list_fmap_compose. apply NoDup_fst_map_to_list.
      * apply (list_elem_of_fmap_2' _ _ (url, old)); [|done].
        by apply elem_of_map_to_list.
    + apply dict_lookup_None. rewrite <- list_fmap_compose. intros Hin.
      apply list_elem_of_fmap in Hin as ([k' v'] & Heq & Hin).
      cbn in Heq. subst k'. apply elem_of_map_to_list in Hin. congruence.
  - apply db_replaces_units. intros [url old] _. cbn [fst snd].
    destruct (monitor_website_spec cfg w url old) as (t & -> & _ & Hdb & _).
    exact Hdb.
  - intros url. rewrite events_about_units.
    + by rewrite dict_map_to_list.
    + intros [url' old] _. cbn [fst snd].
      destruct (monitor_website_spec cfg w url' old) as (t & -> & Htag & _).
      exact Htag.
    + apply NoDup_fst_map_to_list.
Qed.

End Cycle.

Section CycleFacts.

Context (cfg : config) (w : world).

Lemma updated_websites_result (websites : gmap string (option string)) :
  result (updated_websites cfg w websites) = Return (next_snapshots w websites).
Proof. destruct (updated_websites_spec cfg w websites) as (t & -> & _). done. Qed.

Lemma next_snapshots_lookup (websites : gmap string (option string)) url :
  next_snapshots w websites !! url =
    (fun old => snapshot_after old (fetched w url)) <$> websites !! url.
Proof.
  unfold next_snapshots. rewrite map_lookup_imap. by destruct (websites !! url).
Qed.

Lemma updated_websites_notifications (websites : gmap string (option string)) url :
  notifications_of url (trace (updated_websites cfg w websites)) =
    match websites !! url with
    | Some old => expected_notifications cfg w url old (fetched w url)
    | None => []
    end.
Proof.
  destruct (updated_websites_spec cfg w websites) as (t & -> & _ & Hev).
  cbn [trace fst]. rewrite <- notifications_of_about, Hev.
  destruct (websites !! url) as [old|]; [|done].
  destruct (monitor_website_spec cfg w url old) as (t' & -> & _ & _ & Hn).
  exact Hn.
Qed.

Lemma fetched_page url new :
  result (get_page_content w url) = Return (Some new) -> fetched w url = Some new.
Proof. unfold fetched. by intros ->. Qed.

Lemma fetched_marker url :
  result (get_page_content w url) = Return None -> fetched w url = None.
Proof. unfold fetched. by intros ->. Qed.

(** The trace of a turn: the two opening log lines, the units, the save,
    the closing log line. *)
Lemma monitor_cycle_spec (db : database) :
  exists t_units t_save db',
    updated_websites cfg w (dict (rows_of db))
      = (t_units, Return (next_snapshots w (dict (rows_of db)))) /\
    save_websites w (next_snapshots w (dict (rows_of db))) (init_db db)
      = (t_save, Return db') /\
    Forall (fun ev => event_unit ev = None) t_save /\
    monitor_cycle cfg w db =
      ([Log INFO None "Starting monitoring loop...";
        Log DEBUG None ("Loaded websites: " +:+ repr_dict (dict (rows_of db)))]
       ++ t_units ++ t_save
       ++ [Log INFO None ("Check completed. Next run in "
                          +:+ pretty (CHECK_INTERVAL cfg) +:+ " seconds.")],
       Return db').
Proof.
  destruct (updated_websites_spec cfg w (dict (rows_of db))) as (tu & Hu & _).
  destruct (save_websites_returns w (next_snapshots w (dict (rows_of db)))
              (init_db db)) as (ts & db' & Hs & Htag).
  exists tu, ts, db'. split; [done|]. split; [done|]. split; [done|].
  unfold monitor_cycle, load_websites. unfold bind at 1 2 3. cbn [emit ret].
  rewrite init_db_rows. cbn [snd fst]. rewrite Hu. unfold bind at 1.
  rewrite Hs. run_monad. reflexivity.
Qed.


End CycleFacts.

(** ** Changing the world at one URL *)

Lemma append_inj_r (p a b : string) : p +:+ a = p +:+ b -> a = b.
Proof. induction p as [|c p IH]; cbn; [done|]. intros [= H]. by apply IH. Qed.

Section Isolation.

Context (cfg : config) (w : world).

(** A unit consults the network only for its own URL. *)
Lemma monitor_website_with_network X o Y old_content :
  Y <> X ->
  monitor_website cfg (with_network w X o) Y old_content
    = monitor_website cfg w Y old_content.
Proof.
  intros Hne. unfold monitor_website, get_page_content, requests_get.
  cbn [network html_parser with_network].
  rewrite (proj2 (String.eqb_neq Y X) Hne). reflexivity.
Qed.

Lemma fetched_with_network X o Y :
  Y <> X -> fetched (with_network w X o) Y = fetched w Y.
Proof.
  intros Hne. unfold fetched, get_page_content, requests_get.
  cbn [network html_parser with_network].
  rewrite (proj2 (String.eqb_neq Y X) Hne). reflexivity.
Qed.

(** A unit consults the relay only for messages whose subject names its
    own URL. *)
Lemma send_email_with_relay_answer msg o X Y a b :
  Subject msg = "🌐 Website Change Detected: " +:+ X ->
  Y <> X ->
  send_email cfg (with_relay_answer w msg o) Y a b = send_email cfg w Y a b.
Proof.
  intros Hsubj Hne. unfold send_email, subscript_to, smtp_deliver.
  destruct a as [a|], b as [b|]; try reflexivity.
  run_monad. cbn [relay with_relay_answer strftime].
  rewrite bool_decide_eq_false_2; [reflexivity|].
  intros Heq. apply Hne. apply (f_equal Subject) in Heq.
  rewrite Hsubj in Heq. cbn [Subject notification] in Heq.
  by apply append_inj_r in Heq.
Qed.

Lemma monitor_website_with_relay_answer msg o X Y old_content :
  Subject msg = "🌐 Website Change Detected: " +:+ X ->
  Y <> X ->
  monitor_website cfg (with_relay_answer w msg o) Y old_content
    = monitor_website cfg w Y old_content.
Proof.
  intros Hsubj Hne. unfold monitor_website.
  change (get_page_content (with_relay_answer w msg o) Y)
    with (get_page_content w Y).
  destruct (get_page_content w Y) as [t [[new|]|e]]; try reflexivity.
  run_monad. destruct (negb (truthy old_content)); [reflexivity|].
  case_bool_decide; [|reflexivity].
  by rewrite (send_email_with_relay_answer msg o X Y).
Qed.

Lemma fetched_with_relay_answer msg o Y :
  fetched (with_relay_answer w msg o) Y = fetched w Y.
Proof. reflexivity. Qed.

End Isolation.

(** ** The decision table *)

Lemma snapshot_after_changed old new :
  old <> EmptyString -> new <> old ->
  snapshot_after (Some old) (Some new) = Some new.
Proof.
  intros Hne Hdiff. destruct old as [|c old]; [congruence|].
  cbn [snapshot_after]. by rewrite (proj2 (String.eqb_neq _ _) Hdiff).
Qed.

Lemma snapshot_after_unchanged old :
  old <> EmptyString -> snapshot_after (Some old) (Some old) = Some old.
Proof.
  intros Hne. destruct old as [|c old]; [congruence|].
  cbn [snapshot_after]. by rewrite String.eqb_refl.
Qed.

Lemma change_detected_changed old new :
  old <> EmptyString -> new <> old ->
  change_detected (Some old) (Some new) = Some (old, new).
Proof.
  intros Hne Hdiff. destruct old as [|c old]; [congruence|].
  cbn [change_detected]. by rewrite (proj2 (String.eqb_neq _ _) Hdiff).
Qed.

Lemma change_detected_unchanged old :
  change_detected (Some old) (Some old) = None.
Proof.
  destruct old as [|c old]; [done|].
  cbn [change_detected]. by rewrite String.eqb_refl.
Qed.

(** * The claims about one turn of the loop *)

Section Claims.

Context (cfg : config) (w : world).

(** C2: a URL with no prior snapshot (stored content [None] or the empty
    string) whose fetch succeeds gets the fetched content as its snapshot
    in the resulting mapping, and no notification is sent for it. *)
Theorem first_observation_stores_silently
    (websites : gmap string (option string)) url old new :
  websites !! url = Some old ->
  old = None \/ old = Some EmptyString ->
  result (get_page_content w url) = Return (Some new) ->
  exists updated,
    result (updated_websites cfg w websites) = Return updated /\
    updated !! url = Some (Some new) /\
    notifications_of url (trace (updated_websites cfg w websites)) = [].
Proof.
  intros Hold Hnone Hfetch. apply fetched_page in Hfetch.
  exists (next_snapshots w websites). split; [apply updated_websites_result|].
  rewrite next_snapshots_lookup, updated_websites_notifications, Hold, Hfetch.
  destruct Hnone as [-> | ->]; split; reflexivity.
Qed.

(** C3: a URL with a non-empty snapshot whose fetch returns exactly that
    snapshot keeps it in the resulting mapping, and no notification is
    sent for it. *)
Theorem unchanged_page_keeps_snapshot
    (websites : gmap string (option string)) url old :
  websites !! url = Some (Some old) ->
  old <> EmptyString ->
  result (get_page_content w url) = Return (Some old) ->
  exists updated,
    result (updated_websites cfg w websites) = Return updated /\
    updated !! url = Some (Some old) /\
    notifications_of url (trace (updated_websites cfg w websites)) = [].
Proof.
  intros Hold Hne Hfetch. apply fetched_page in Hfetch.
  exists (next_snapshots w websites). split; [apply updated_websites_result|].
  rewrite next_snapshots_lookup, updated_websites_notifications, Hold, Hfetch.
  unfold expected_notifications. rewrite change_detected_unchanged.
  cbn [fmap option_fmap option_map]. by rewrite snapshot_after_unchanged.
Qed.

(** C1: a URL with a non-empty snapshot whose fetch returns a different
    string gets the fetched content as its snapshot in the resulting
    mapping; exactly one notification goes out for it in the turn, the
    one composed from the old and new content; and the turn's trace
    splits into a first part that holds this notification and no write
    to the store, and a rest that holds no notification for the URL and,
    when the storage engine works, the single write, which carries the
    new content for the URL. *)
Theorem changed_page_notifies_once_then_stores (db : database) url old new :
  dict (rows_of db) !! url = Some (Some old) ->
  old <> EmptyString ->
  result (get_page_content w url) = Return (Some new) ->
  new <> old ->
  let msg := notification cfg url (strftime w url)
               (slice_to 500 old) (slice_to 500 new) in
  exists updated,
    result (updated_websites cfg w (dict (rows_of db))) = Return updated /\
    updated !! url = Some (Some new) /\
    notifications_of url (trace (monitor_cycle cfg w db)) = [(msg, delivers w msg)] /\
    exists before rest,
      trace (monitor_cycle cfg w db) = before ++ rest /\
      notifications_of url before = [(msg, delivers w msg)] /\
      db_replaces before = [] /\
      notifications_of url rest = [] /\
      (storage w = None ->
       exists rows, db_replaces rest = [rows] /\ (url, Some new) ∈ rows).
Proof.
  intros Hold Hne Hfetch Hdiff msg. apply fetched_page in Hfetch.
  set (websites := dict (rows_of db)) in *.
  assert (next_snapshots w websites !! url = Some (Some new)) as Hnew.
  { rewrite next_snapshots_lookup, Hold, Hfetch.
    cbn [fmap option_fmap option_map]. by rewrite snapshot_after_changed. }
  assert (notifications_of url (trace (updated_websites cfg w websites))
          = [(msg, delivers w msg)]) as Hone.
  { rewrite updated_websites_notifications, Hold, Hfetch.
    unfold expected_notifications. by rewrite change_detected_changed. }
  destruct (monitor_cycle_spec cfg w db) as (tu & ts & db' & Hu & Hs & Htag & Hc).
  fold websites in Hu, Hs, Hc.
  destruct (updated_websites_spec cfg w websites) as (tu' & Hu' & Hdb & _).
  rewrite Hu in Hu'. injection Hu' as <-.
  rewrite Hu in Hone. cbn [trace fst] in Hone.
  assert (notifications_of url ts = []) as Hts.
  { rewrite <- notifications_of_about. by rewrite events_of_loop_about. }
  exists (next_snapshots w websites). split; [apply updated_websites_result|].
  split; [done|]. rewrite Hc. cbn [trace fst]. split.
  - rewrite !notifications_of_app, Hone, Hts. reflexivity.
  - exists ([Log INFO None "Starting monitoring loop...";
             Log DEBUG None ("Loaded websites: " +:+ repr_dict websites)] ++ tu),
           (ts ++ [Log INFO None ("Check completed. Next run in "
                                  +:+ pretty (CHECK_INTERVAL cfg) +:+ " seconds.")]).
    split; [by rewrite <- app_assoc|].
    rewrite !notifications_of_app, !db_replaces_app, Hone, Hts, Hdb.
    split; [reflexivity|]. split; [reflexivity|]. split; [reflexivity|].
    intros Hst. rewrite (save_websites_sound w _ _ Hst) in Hs.
    injection Hs as <- <-. eexists. split; [reflexivity|].
    by apply elem_of_map_to_list.
Qed.

(** C4: when the fetch of [X] returns the failure marker, [X] keeps its
    stored value in the resulting mapping and no notification is sent
    for it; and for every other URL [Y] the resulting snapshot and the
    events of its unit are what they are in the world where the network
    answers [X] otherwise, in particular with a page. *)
Theorem fetch_failure_is_isolated
    (websites : gmap string (option string)) X old :
  websites !! X = Some old ->
  result (get_page_content w X) = Return None ->
  exists updated,
    result (updated_websites cfg w websites) = Return updated /\
    updated !! X = Some old /\
    notifications_of X (trace (updated_websites cfg w websites)) = [] /\
    forall (o : net_outcome) Y,
      Y <> X ->
      exists updated',
        result (updated_websites cfg (with_network w X o) websites)
          = Return updated' /\
        updated' !! Y = updated !! Y /\
        events_about Y (trace (updated_websites cfg (with_network w X o) websites))
          = events_about Y (trace (updated_websites cfg w websites)).
Proof.
  intros Hold Hfetch. apply fetched_marker in Hfetch.
  exists (next_snapshots w websites). split; [apply updated_websites_result|].
  rewrite next_snapshots_lookup, updated_websites_notifications, Hold, Hfetch.
  split; [done|]. split.
  { unfold expected_notifications, change_detected. by destruct old as [[|]|]. }
  intros o Y Hne. exists (next_snapshots (with_network w X o) websites).
  split; [apply updated_websites_result|]. split.
  - by rewrite !next_snapshots_lookup, fetched_with_network.
  - destruct (updated_websites_spec cfg w websites) as (t & -> & _ & Hev).
    destruct (updated_websites_spec cfg (with_network w X o) websites)
      as (t' & -> & _ & Hev').
    cbn [trace fst]. rewrite Hev, Hev'. destruct (websites !! Y); [|done].
    by rewrite monitor_website_with_network.
Qed.

(** C9: when a change is detected for a URL and the relay refuses its
    notification, [send_email] returns normally after logging the error,
    the new content is the URL's snapshot in the resulting mapping, and
    for every other URL [Y] the resulting snapshot and the events of its
    unit are what they are in the world where the relay answers that
    notification otherwise, in particular by delivering it. *)
Theorem notification_failure_is_contained
    (websites : gmap string (option string)) url old new f detail :
  websites !! url = Some (Some old) ->
  old <> EmptyString ->
  result (get_page_content w url) = Return (Some new) ->
  new <> old ->
  let msg := notification cfg url (strftime w url)
               (slice_to 500 old) (slice_to 500 new) in
  relay w msg = SmtpFails f detail ->
  send_email cfg w url (Some old) (Some new) =
    ([SmtpSession url msg false;
      Log ERROR (Some url)
        ("Failed to send email for " +:+ url +:+ ": " +:+ detail)],
     Return tt) /\
  exists updated,
    result (updated_websites cfg w websites) = Return updated /\
    updated !! url = Some (Some new) /\
    notifications_of url (trace (updated_websites cfg w websites)) = [(msg, false)] /\
    forall (o : smtp_outcome) Y,
      Y <> url ->
      exists updated',
        result (updated_websites cfg (with_relay_answer w msg o) websites)
          = Return updated' /\
        updated' !! Y = updated !! Y /\
        events_about Y
          (trace (updated_websites cfg (with_relay_answer w msg o) websites))
          = events_about Y (trace (updated_websites cfg w websites)).
Proof.
  intros Hold Hne Hfetch Hdiff msg Hrelay. apply fetched_page in Hfetch. split.
  { unfold send_email, subscript_to, smtp_deliver. run_monad. fold msg.
    rewrite Hrelay. run_monad. unfold isinstance. cbn [exn_cls exn_str].
    by rewrite smtplib_exception_caught. }
  exists (next_snapshots w websites). split; [apply updated_websites_result|].
  rewrite next_snapshots_lookup, updated_websites_notifications, Hold, Hfetch.
  split; [|split].
  - cbn [fmap option_fmap option_map]. by rewrite snapshot_after_changed.
  - unfold expected_notifications. rewrite change_detected_changed by done.
    fold msg. unfold delivers. by rewrite Hrelay.
  - intros o Y HY. exists (next_snapshots (with_relay_answer w msg o) websites).
    split; [apply updated_websites_result|]. split.
    + by rewrite !next_snapshots_lookup.
    + destruct (updated_websites_spec cfg w websites) as (t & -> & _ & Hev).
      destruct (updated_websites_spec cfg (with_relay_answer w msg o) websites)
        as (t' & -> & _ & Hev').
      cbn [trace fst]. rewrite Hev, Hev'. destruct (websites !! Y); [|done].
      by rewrite (monitor_website_with_relay_answer cfg w msg o url Y).
Qed.

(** C10: the mapping a turn produces has exactly the keys of the mapping
    it started from, whatever the fetches and deliveries do. *)
Theorem cycle_preserves_keys (websites : gmap string (option string)) :
  exists updated,
    result (updated_websites cfg w websites) = Return updated /\
    dom updated = dom websites.
Proof.
  exists (next_snapshots w websites). split; [apply updated_websites_result|].
  apply set_eq. intros url. rewrite !elem_of_dom, next_snapshots_lookup.
  destruct (websites !! url); cbn; split; intros [? ?]; by eauto.
Qed.

End Claims.

(** * The store round trip *)

(** What [load_websites] returns from a table that exists. *)
Lemma load_websites_table (t : table) :
  result (load_websites (Some t)) = Return (Some t, dict t).
Proof. reflexivity. Qed.

(** Persisting the mapping just loaded and loading again gives the same
    mapping, whether or not the storage engine fails during the save. *)
Lemma save_loaded_then_load (w : world) (db : database) :
  exists db0 loaded db',
    result (load_websites db) = Return (db0, loaded) /\
    result (save_websites w loaded db0) = Return db' /\
    result (load_websites db') = Return (db', loaded).
Proof.
  exists (init_db db), (dict (rows_of (init_db db))). 
  destruct (storage w) as [[p detail]|] eqn:Hst.
  - destruct (save_websites_fault w (dict (rows_of (init_db db))) (init_db db)
                p detail Hst) as (t & Hs & _).
    exists (init_db db). rewrite Hs, init_db_idemp. repeat split.
    unfold load_websites, result. cbn. by rewrite init_db_idemp.
  - exists (Some (map_to_list (dict (rows_of (init_db db))))).
    rewrite save_websites_sound by done. repeat split.
    rewrite load_websites_table. by rewrite dict_map_to_list.
Qed.

(** C5: when the storage engine does not fail, [save_websites] followed
    by [load_websites] gives back the mapping that was saved, for every
    mapping from URL to content, [None] contents included, and whatever
    the table held before. *)
Theorem save_then_load_is_identity (w : world)
    (websites : gmap string (option string)) (db : database) :
  storage w = None ->
  exists db',
    result (save_websites w websites db) = Return db' /\
    result (load_websites db') = Return (db', websites).
Proof.
  intros Hst. exists (Some (map_to_list websites)).
  rewrite save_websites_sound by done. split; [reflexivity|].
  rewrite load_websites_table. by rewrite dict_map_to_list.
Qed.

(** * The fetcher's boundary *)


(** * The notification *)

Lemma slice_to_prefix n s : exists rest, s = slice_to n s +:+ rest.
Proof.
  revert s. induction n as [|n IH]; intros s; [by exists s|].
  destruct s as [|c s]; [by exists EmptyString|].
  destruct (IH s) as [rest Hrest]. exists rest.
  change (String c s = String c (slice_to n s +:+ rest)). by rewrite <- Hrest.
Qed.

Lemma slice_to_length n s :
  String.length (slice_to n s) = Nat.min n (String.length s).
Proof.
  revert s. induction n as [|n IH]; intros s; [done|].
  destruct s as [|c s]; [done|]. cbn. by rewrite IH.
Qed.

(** C8: for every URL, old content and new content, [send_email] hands
    one message to the relay.  Its subject is the fixed prefix followed
    by the URL; its body holds, in this order, the URL, the timestamp,
    the first 500 characters of the old content followed by three dots,
    and the first 500 characters of the new content followed by three
    dots.  The dots are there whatever the lengths of the contents. *)
Theorem notification_shows_url_time_and_excerpts
    (cfg : config) (w : world) url old new :
  exists msg delivered lv text,
    send_email cfg w url (Some old) (Some new)
      = ([SmtpSession url msg delivered; Log lv (Some url) text], Return tt) /\
    Subject msg = "🌐 Website Change Detected: " +:+ url /\
    (exists a b c d e,
       body msg = a +:+ url +:+ b +:+ strftime w url
                    +:+ c +:+ slice_to 500 old +:+ "..."
                    +:+ d +:+ slice_to 500 new +:+ "..." +:+ e) /\
    (exists rest, old = slice_to 500 old +:+ rest) /\
    (exists rest, new = slice_to 500 new +:+ rest) /\
    String.length (slice_to 500 old) = Nat.min 500 (String.length old) /\
    String.length (slice_to 500 new) = Nat.min 500 (String.length new).
Proof.
  destruct (send_email_shape cfg w url old new) as (lv & text & Hs).
  do 4 eexists. split; [exact Hs|]. split; [reflexivity|]. split.
  - exists (LF +:+ "    🔔 **Website Update Alert**" +:+ LF
            +:+ "    -------------------------------" +:+ LF
            +:+ "    🖥 **Website:** "),
           (LF +:+ "    " +:+ LF +:+ "    🕒 **Detected Change at:** "),
           (LF +:+ "    " +:+ LF
            +:+ "    📜 **Old Content (First 500 chars):**" +:+ LF +:+ "    "),
           (LF +:+ "    " +:+ LF
            +:+ "    🆕 **New Content (First 500 chars):**" +:+ LF +:+ "    "),
           (LF +:+ "    " +:+ LF
            +:+ "    📌 Check the website for full details: " +:+ url +:+ LF
            +:+ "    ").
    reflexivity.
  - split; [apply slice_to_prefix|]. split; [apply slice_to_prefix|].
    split; apply slice_to_length.
Qed.

(** * Text extraction *)

Section Extraction.

Import Soup Region.
















End Extraction.


(** * What [strip] does *)



Lemma rstrip_first_char (s : string) c :
  first_char s = Some c -> isspace c = false -> first_char (rstrip s) = Some c.
Proof.
  destruct s as [|c' s]; [done|]. cbn [first_char rstrip]. intros [= ->] Hsp.
  destruct (rstrip s); [by rewrite Hsp|done].
Qed.



(** * The scenarios of the specification, run *)

Section Scenarios.

Import Sample.

(** The store holds "Hello" for site a and the fetch returns "Hello": no
    email, snapshot unchanged. *)
Example scenario_unchanged :
  let m := updated_websites cfg (the_world "<p>Hello</p>" Delivered)
             {[ site_a := Some "Hello" ]} in
  result m = Return {[ site_a := Some "Hello" ]} /\
  notifications_of site_a (trace m) = [].
Proof. split; vm_compute; reflexivity. Qed.

(** The store holds "Hello" and the fetch returns "World": one email
    whose body shows both, snapshot becomes "World". *)
Example scenario_changed :
  let m := updated_websites cfg (the_world "<p>World</p>" Delivered)
             {[ site_a := Some "Hello" ]} in
  result m = Return {[ site_a := Some "World" ]} /\
  notifications_of site_a (trace m)
    = [(notification cfg site_a "2024-01-01 00:00:00" "Hello" "World", true)].
Proof. split; vm_compute; reflexivity. Qed.

(** The store holds the empty string (first run) and the fetch returns
    "Welcome": no email, snapshot becomes "Welcome". *)
Example scenario_first_run :
  let m := updated_websites cfg (the_world "<p>Welcome</p>" Delivered)
             {[ site_a := Some EmptyString ]} in
  result m = Return {[ site_a := Some "Welcome" ]} /\
  notifications_of site_a (trace m) = [].
Proof. split; vm_compute; reflexivity. Qed.

(** The fetch for site b times out with "X" stored: the snapshot stays
    "X", a warning is logged, no email. *)
Example scenario_timeout :
  let m := updated_websites cfg (the_world "<p>Hello</p>" Delivered)
             {[ site_b := Some "X" ]} in
  result m = Return {[ site_b := Some "X" ]} /\
  notifications_of site_b (trace m) = [] /\
  Log WARNING (Some site_b) "Failed to fetch content for https://b.example. Skipping."
    ∈ trace m.
Proof.
  split; [vm_compute; reflexivity|]. split; [vm_compute; reflexivity|].
  vm_compute. do 2 right. left.
Qed.

(** A whole turn from a table that does not exist yet: the table is
    created empty and stays empty. *)
Example scenario_fresh_store :
  result (monitor_cycle cfg (the_world "<p>Hello</p>" Delivered) None) = Return (Some []).
Proof. vm_compute. reflexivity. Qed.

(** A storage fault during the save loses the turn's update: the table
    keeps the old snapshot. *)
Example scenario_save_fault :
  result (save_websites locked_world {[ site_a := Some "World" ]}
            (Some [(site_a, Some "Hello")]))
    = Return (Some [(site_a, Some "Hello")]).
Proof. vm_compute. reflexivity. Qed.

(** A "main" element wins over a content container that comes first in
    the document; comments and markup leave no text, text nodes are
    stripped and put end to end. *)
Example scenario_regions :
  result (get_page_content (the_world region_markup Delivered) site_a)
    = Return (Some "m") /\
  Soup.get_text
    (Soup.Tag "div" ["content"]
       [Soup.NavigableString " a "; Soup.Comment "x";
        Soup.Tag "b" [] [Soup.NavigableString "b "]]) = "ab".
Proof. split; vm_compute; reflexivity. Qed.

End Scenarios.

(** * Instances *)

Section Instances.

Import Sample.

Lemma changed_page_instance :
  exists updated,
    result (updated_websites cfg (the_world "<p>World</p>" Delivered)
              (dict [(site_a, Some "Hello")])) = Return updated /\
    updated !! site_a = Some (Some "World") /\
    length (notifications_of site_a
              (trace (monitor_cycle cfg (the_world "<p>World</p>" Delivered)
                        (Some [(site_a, Some "Hello")])))) = 1%nat.
Proof.
  destruct (changed_page_notifies_once_then_stores cfg
              (the_world "<p>World</p>" Delivered)
              (Some [(site_a, Some "Hello")]) site_a "Hello" "World")
    as (updated & Hr & Hl & Hn & _).
  - vm_compute. reflexivity.
  - discriminate.
  - vm_compute. reflexivity.
  - discriminate.
  - exists updated. split; [exact Hr|]. split; [exact Hl|].
    rewrite Hn. reflexivity.
Defined.

Lemma first_observation_instance :
  exists updated,
    result (updated_websites cfg (the_world "<p>Welcome</p>" Delivered)
              {[ site_a := None ]}) = Return updated /\
    updated !! site_a = Some (Some "Welcome") /\
    notifications_of site_a
      (trace (updated_websites cfg (the_world "<p>Welcome</p>" Delivered)
                {[ site_a := None ]})) = [].
Proof.
  apply (first_observation_stores_silently cfg
           (the_world "<p>Welcome</p>" Delivered) {[ site_a := None ]}
           site_a None "Welcome").
  - vm_compute. reflexivity.
  - left. reflexivity.
  - vm_compute. reflexivity.
Defined.

Lemma unchanged_page_instance :
  exists updated,
    result (updated_websites cfg (the_world "<p>Hello</p>" Delivered)
              {[ site_a := Some "Hello" ]}) = Return updated /\
    updated !! site_a = Some (Some "Hello") /\
    notifications_of site_a
      (trace (updated_websites cfg (the_world "<p>Hello</p>" Delivered)
                {[ site_a := Some "Hello" ]})) = [].
Proof.
  apply (unchanged_page_keeps_snapshot cfg
           (the_world "<p>Hello</p>" Delivered) {[ site_a := Some "Hello" ]}
           site_a "Hello").
  - vm_compute. reflexivity.
  - discriminate.
  - vm_compute. reflexivity.
Defined.

Lemma fetch_failure_instance :
  exists updated,
    result (updated_websites cfg (the_world "<p>World</p>" Delivered)
              (dict [(site_a, Some "Hello"); (site_b, Some "X")]))
      = Return updated /\
    updated !! site_b = Some (Some "X").
Proof.
  destruct (fetch_failure_is_isolated cfg (the_world "<p>World</p>" Delivered)
              (dict [(site_a, Some "Hello"); (site_b, Some "X")])
              site_b (Some "X"))
    as (updated & Hr & Hl & _).
  - vm_compute. reflexivity.
  - vm_compute. reflexivity.
  - exists updated. split; [exact Hr|exact Hl].
Defined.

Lemma notification_failure_instance :
  exists updated,
    result (updated_websites cfg (the_world "<p>World</p>" auth_rejected)
              (dict [(site_a, Some "Hello"); (site_b, Some "X")]))
      = Return updated /\
    updated !! site_a = Some (Some "World").
Proof.
  destruct (notification_failure_is_contained cfg
              (the_world "<p>World</p>" auth_rejected)
              (dict [(site_a, Some "Hello"); (site_b, Some "X")])
              site_a "Hello" "World" AuthRejected
              "(535, b'5.7.8 Username and Password not accepted')")
    as (_ & updated & Hr & Hl & _).
  - vm_compute. reflexivity.
  - discriminate.
  - vm_compute. reflexivity.
  - discriminate.
  - reflexivity.
  - exists updated. split; [exact Hr|exact Hl].
Defined.

Lemma save_then_load_instance :
  exists db',
    result (save_websites (the_world "<p>Hello</p>" Delivered)
              {[ site_a := Some "Hello"; site_b := None ]}
              (Some [(site_c, Some "old")])) = Return db' /\
    result (load_websites db')
      = Return (db', {[ site_a := Some "Hello"; site_b := None ]}).
Proof.
  apply (save_then_load_is_identity (the_world "<p>Hello</p>" Delivered)).
  reflexivity.
Defined.



End Instances.

(** * Further properties of the store *)

(** X3: a store whose table is missing or empty loads as the empty mapping,
    and the table exists afterwards. *)
Theorem load_websites_empty (db : database) :
  rows_of db = [] ->
  result (load_websites db) = Return (Some [], ∅).
Proof.
  intros Hrows. unfold load_websites. cbn [result snd bind emit ret].
  destruct db as [t|]; cbn in Hrows |- *; by subst.
Qed.

(** Loading never changes the rows, and what is loaded depends on the
    rows only: loading twice gives the same mapping. *)
Lemma load_websites_stable (db : database) :
  exists db' websites,
    result (load_websites db) = Return (db', websites) /\
    rows_of db' = rows_of db /\
    result (load_websites db') = Return (db', websites).
Proof.
  exists (init_db db), (dict (rows_of (init_db db))).
  split; [reflexivity|]. split; [apply init_db_rows|].
  unfold load_websites. cbn [result snd bind emit ret].
  by rewrite init_db_idemp.
Qed.

(** * Further properties of a turn *)

Section Turns.

Context (cfg : config) (w : world).





End Turns.


(** * The log file *)


(** Calling [setup_logging] again changes nothing. *)
Lemma setup_logging_idemp (log_file : option N) :
  setup_logging (setup_logging log_file) = setup_logging log_file.
Proof.
  unfold setup_logging, log_limit. destruct log_file as [old|]; [|reflexivity].
  destruct (N.ltb_spec (1 * 1024 * 1024) old) as [Hbig|Hsmall]; [reflexivity|].
  by rewrite (proj2 (N.ltb_ge _ _) Hsmall).
Qed.

(** * Requests and notifications of a turn *)

Lemma requests_to_app url (t1 t2 : list event) :
  requests_to url (t1 ++ t2) = requests_to url t1 ++ requests_to url t2.
Proof. apply omap_app. Qed.

Lemma requests_to_about url (t : list event) :
  requests_to url (events_about url t) = requests_to url t.
Proof.
  unfold requests_to, events_about. induction t as [|ev t IH]; [done|].
  destruct (decide (event_unit ev = Some url)) as [Hu|Hu].
  - rewrite filter_cons_True by done. cbn. by rewrite IH.
  - rewrite filter_cons_False by done. rewrite IH. cbn.
    destruct ev as [|u| |]; try done.
    rewrite bool_decide_eq_false_2; [done|]. cbn in Hu. congruence.
Qed.

Section Counting.

Context (cfg : config) (w : world).

(** A unit asks for its page once, whatever comes back. *)
Lemma monitor_website_requests url old_content :
  requests_to url (trace (monitor_website cfg w url old_content)) = [url].
Proof.
  destruct (get_page_content_shape w url) as (lv & text & v & Hg & _).
  unfold monitor_website. rewrite Hg. run_monad.
  assert (requests_to url [HttpGet url; Log lv (Some url) text] = [url]) as H0.
  { unfold requests_to. cbn. by rewrite bool_decide_eq_true_2. }
  destruct v as [new|].
  - destruct (negb (truthy old_content)).
    + unfold requests_to. cbn. by rewrite bool_decide_eq_true_2.
    + case_bool_decide.
      * destruct old_content as [old|].
        -- destruct (send_email_shape cfg w url old new) as (lv' & text' & ->).
           unfold requests_to. cbn. by rewrite bool_decide_eq_true_2.
        -- unfold send_email, subscript_to. run_monad.
           unfold requests_to. cbn. by rewrite bool_decide_eq_true_2.
      * exact H0.
  - unfold requests_to. cbn. by rewrite bool_decide_eq_true_2.
Qed.

(** X8: in a turn every stored URL is requested exactly once, failed fetches
    included, and no other URL is requested. *)
Theorem one_request_per_stored_url (websites : gmap string (option string)) url :
  requests_to url (trace (updated_websites cfg w websites)) =
    match websites !! url with
    | Some _ => [url]
    | None => []
    end.
Proof.
  destruct (updated_websites_spec cfg w websites) as (t & -> & _ & Hev).
  cbn [trace fst]. rewrite <- requests_to_about, Hev.
  destruct (websites !! url) as [old|]; [|done].
  apply monitor_website_requests.
Qed.

(** X9: in a turn at most one notification goes out for a URL, and one goes
    out only for a stored URL with a non-empty snapshot whose fetch gave
    a page different from it. *)
Theorem notification_only_for_detected_change
    (websites : gmap string (option string)) url :
  (length (notifications_of url (trace (updated_websites cfg w websites))) <= 1)%nat /\
  (notifications_of url (trace (updated_websites cfg w websites)) <> [] ->
   exists old new,
     websites !! url = Some (Some old) /\ old <> EmptyString /\
     result (get_page_content w url) = Return (Some new) /\ new <> old).
Proof.
  rewrite updated_websites_notifications. unfold expected_notifications.
  destruct (websites !! url) as [old_content|]; [|split; [cbn; lia|done]].
  rewrite get_page_content_returns.
  destruct (change_detected old_content (fetched w url)) as [[old new]|] eqn:Hc;
    [|split; [cbn; lia|done]].
  split; [cbn; lia|]. intros _. unfold change_detected in Hc.
  destruct old_content as [[|c old']|]; try discriminate.
  destruct (fetched w url) as [new'|]; try discriminate.
  destruct (String.eqb new' (String c old')) eqn:Heq; [discriminate|].
  injection Hc as <- <-. exists (String c old'), new'.
  split; [done|]. split; [done|]. split; [done|]. by apply String.eqb_neq.
Qed.

Lemma snapshot_after_idemp old v :
  snapshot_after (snapshot_after old v) v = snapshot_after old v.
Proof.
  destruct v as [new|]; [|done].
  destruct old as [[|c old]|]; cbn [snapshot_after].
  - destruct new as [|c new]; [done|]. by rewrite String.eqb_refl.
  - destruct (String.eqb new (String c old)) eqn:Heq.
    + cbn [snapshot_after]. by rewrite Heq.
    + destruct new as [|c' new]; [done|]. cbn [snapshot_after].
      by rewrite String.eqb_refl.
  - destruct new as [|c new]; [done|]. by rewrite String.eqb_refl.
Qed.

Lemma change_detected_after old v :
  change_detected (snapshot_after old v) v = None.
Proof.
  destruct v as [new|]; [|by destruct old as [[|]|]].
  destruct old as [[|c old]|]; cbn [snapshot_after].
  - apply change_detected_unchanged.
  - destruct (String.eqb new (String c old)) eqn:Heq.
    + apply String.eqb_eq in Heq as ->. apply change_detected_unchanged.
    + apply change_detected_unchanged.
  - apply change_detected_unchanged.
Qed.

(** X6: a second turn against the same world changes no snapshot and sends
    no notification: a change is notified once, not at every turn. *)
Theorem second_turn_is_quiet (websites updated : gmap string (option string)) :
  result (updated_websites cfg w websites) = Return updated ->
  result (updated_websites cfg w updated) = Return updated /\
  forall url, notifications_of url (trace (updated_websites cfg w updated)) = [].
Proof.
  rewrite updated_websites_result. intros [= <-]. split.
  - rewrite updated_websites_result. f_equal. apply map_eq. intros url.
    rewrite !next_snapshots_lookup. destruct (websites !! url); [|done].
    cbn. by rewrite snapshot_after_idemp.
  - intros url. rewrite updated_websites_notifications, next_snapshots_lookup.
    destruct (websites !! url); [|done]. cbn.
    unfold expected_notifications. by rewrite change_detected_after.
Qed.

End Counting.

(** * Two turns in a row *)

Section TwoTurns.

Context (cfg : config) (w1 w2 : world).

(** X11: a page whose text vanishes is notified once, and the empty snapshot
    then counts as "never fetched": when the text is back, whatever it
    is, it is stored without a notification. *)
Theorem vanished_page_returns_silently
    (websites : gmap string (option string)) url old new :
  websites !! url = Some (Some old) ->
  old <> EmptyString ->
  result (get_page_content w1 url) = Return (Some EmptyString) ->
  result (get_page_content w2 url) = Return (Some new) ->
  exists m1 m2,
    result (updated_websites cfg w1 websites) = Return m1 /\
    m1 !! url = Some (Some EmptyString) /\
    length (notifications_of url (trace (updated_websites cfg w1 websites))) = 1%nat /\
    result (updated_websites cfg w2 m1) = Return m2 /\
    m2 !! url = Some (Some new) /\
    notifications_of url (trace (updated_websites cfg w2 m1)) = [].
Proof.
  intros Hold Hne H1 H2. apply fetched_page in H1. apply fetched_page in H2.
  exists (next_snapshots w1 websites), (next_snapshots w2 (next_snapshots w1 websites)).
  assert (next_snapshots w1 websites !! url = Some (Some EmptyString)) as Hm1.
  { rewrite next_snapshots_lookup, Hold, H1. cbn [fmap option_fmap option_map].
    rewrite snapshot_after_changed; [done..|]. by destruct old. }
  split; [apply updated_websites_result|]. split; [exact Hm1|]. split.
  { rewrite updated_websites_notifications, Hold, H1. unfold expected_notifications.
    rewrite change_detected_changed; [done..|]. by destruct old. }
  split; [apply updated_websites_result|].
  rewrite next_snapshots_lookup, updated_websites_notifications, Hm1, H2.
  split; reflexivity.
Qed.

(** X12: a failed fetch does not move the baseline: the change seen once the
    site answers again is measured against, and reported with, the
    content stored before the failure. *)
Theorem outage_keeps_baseline
    (websites : gmap string (option string)) url old new :
  websites !! url = Some (Some old) ->
  old <> EmptyString ->
  result (get_page_content w1 url) = Return None ->
  result (get_page_content w2 url) = Return (Some new) ->
  new <> old ->
  let msg := notification cfg url (strftime w2 url)
               (slice_to 500 old) (slice_to 500 new) in
  exists m1 m2,
    result (updated_websites cfg w1 websites) = Return m1 /\
    m1 !! url = Some (Some old) /\
    result (updated_websites cfg w2 m1) = Return m2 /\
    m2 !! url = Some (Some new) /\
    notifications_of url (trace (updated_websites cfg w2 m1)) = [(msg, delivers w2 msg)].
Proof.
  intros Hold Hne H1 H2 Hdiff msg. apply fetched_marker in H1. apply fetched_page in H2.
  exists (next_snapshots w1 websites), (next_snapshots w2 (next_snapshots w1 websites)).
  assert (next_snapshots w1 websites !! url = Some (Some old)) as Hm1.
  { by rewrite next_snapshots_lookup, Hold, H1. }
  split; [apply updated_websites_result|]. split; [exact Hm1|].
  split; [apply updated_websites_result|].
  rewrite next_snapshots_lookup, updated_websites_notifications, Hm1, H2. split.
  - cbn [fmap option_fmap option_map]. by rewrite snapshot_after_changed.
  - unfold expected_notifications. by rewrite change_detected_changed.
Qed.

End TwoTurns.

(** * The notifier's unguarded part *)

(** X10: the message is composed before the [try]: with [None] for either
    content [send_email] raises [TypeError] to its caller, and the relay
    is never contacted. *)
Theorem send_email_none_raises (cfg : config) (w : world) url old_content new_content :
  old_content = None \/ new_content = None ->
  exists e,
    send_email cfg w url old_content new_content = ([], Raise e) /\
    exn_cls e = TypeError.
Proof.
  unfold send_email, subscript_to.
  intros [-> | ->]; [|destruct old_content]; run_monad; by eexists.
Qed.

(** * Further properties of the extracted text *)

Section Text.

Import Soup.






Lemma lstrip_all_space (s : string) : all_space s = true -> lstrip s = EmptyString.
Proof.
  induction s as [|c s IH]; [done|]. cbn [all_space lstrip].
  intros [-> Hs]%andb_true_iff. by apply IH.
Qed.

Lemma strip_all_space (s : string) : all_space s = true -> Py.strip s = EmptyString.
Proof. intros Hs. unfold Py.strip. by rewrite lstrip_all_space. Qed.

Lemma all_strings_app (l1 l2 : list node) :
  all_strings (l1 ++ l2) = all_strings l1 ++ all_strings l2.
Proof.
  induction l1 as [|[s|s|name classes children] l1 IH]; [done| |done|done].
  cbn [all_strings app]. destruct (Py.strip s); [done|]. by rewrite IH.
Qed.

Lemma descendants_cons name classes x (l : list node) :
  descendants (Tag name classes (x :: l))
    = x :: descendants x ++ descendants (Tag name classes l).
Proof. reflexivity. Qed.

Lemma descendants_app name classes (l1 l2 : list node) :
  descendants (Tag name classes (l1 ++ l2))
    = descendants (Tag name classes l1) ++ descendants (Tag name classes l2).
Proof.
  induction l1 as [|x l1 IH]; [done|].
  rewrite <- app_comm_cons, !descendants_cons, IH.
  rewrite <- app_comm_cons. f_equal. apply app_assoc.
Qed.

(** X15: a child that yields no string (a comment, a text node of whitespace
    only, an element holding nothing else) can be put in or taken out
    without changing the text of its parent. *)
Theorem get_text_ignores_blank_child name classes (before rest : list node) x :
  all_strings (x :: descendants x) = [] ->
  get_text (Tag name classes (before ++ x :: rest))
    = get_text (Tag name classes (before ++ rest)).
Proof.
  intros Hx. unfold get_text.
  rewrite !descendants_app, descendants_cons, !all_strings_app.
  change (x :: descendants x ++ descendants (Tag name classes rest))
    with ((x :: descendants x) ++ descendants (Tag name classes rest)).
  by rewrite all_strings_app, Hx.
Qed.

Lemma comment_yields_nothing s : all_strings (Comment s :: descendants (Comment s)) = [].
Proof. reflexivity. Qed.

Lemma blank_text_yields_nothing s :
  all_space s = true ->
  all_strings (NavigableString s :: descendants (NavigableString s)) = [].
Proof. intros Hs. cbn [all_strings descendants]. by rewrite strip_all_space. Qed.

End Text.


(** * Excerpts of long pages *)

Lemma slice_to_app (p rest : string) : slice_to (String.length p) (p +:+ rest) = p.
Proof.
  induction p as [|c p IH]; [by destruct rest|].
  change (String c (slice_to (String.length p) (p +:+ rest)) = String c p).
  by rewrite IH.
Qed.

(** X16: two contents that agree on their first 500 characters give a
    notification that shows the same excerpt twice: the mail does not
    show what changed. *)
Theorem long_pages_show_equal_excerpts (cfg : config) (w : world) url p a b :
  String.length p = 500%nat ->
  exists delivered lv text,
    send_email cfg w url (Some (p +:+ a)) (Some (p +:+ b))
      = ([SmtpSession url (notification cfg url (strftime w url) p p) delivered;
          Log lv (Some url) text],
         Return tt).
Proof.
  intros Hp. destruct (send_email_shape cfg w url (p +:+ a) (p +:+ b)) as (lv & text & ->).
  rewrite <- Hp, !slice_to_app. eauto.
Qed.

(** A content of at most 500 characters is shown whole, and is still
    followed by the three dots. *)
Lemma slice_to_short n s : (String.length s <= n)%nat -> slice_to n s = s.
Proof.
  revert s. induction n as [|n IH]; intros [|c s] Hlen; try done.
  - cbn in Hlen. lia.
  - cbn [slice_to]. rewrite IH; [done|]. cbn in Hlen. lia.
Qed.

(** * The store and the turn, summed up *)


(** X2: persisting the mapping that was just loaded and loading again
    gives the same mapping, whether the storage engine works or fails
    during the save. *)
Theorem saving_what_was_loaded_changes_nothing (w : world) (db : database) :
  exists db0 loaded db',
    result (load_websites db) = Return (db0, loaded) /\
    result (save_websites w loaded db0) = Return db' /\
    result (load_websites db') = Return (db', loaded).
Proof. apply save_loaded_then_load. Qed.




(** * Instances of the further results *)

Section MoreInstances.

Import Sample Probe.


Lemma empty_store_instance :
  result (load_websites None) = Return (Some [], ∅).
Proof. apply (load_websites_empty None). reflexivity. Defined.



Lemma second_turn_instance :
  result (updated_websites cfg (the_world "<p>World</p>" Delivered)
            {[ site_a := Some "World" ]})
    = Return {[ site_a := Some "World" ]}.
Proof.
  apply (second_turn_is_quiet cfg (the_world "<p>World</p>" Delivered)
           {[ site_a := Some "Hello" ]} {[ site_a := Some "World" ]}).
  vm_compute. reflexivity.
Defined.

Lemma detected_change_instance :
  exists old new,
    ({[ site_a := Some "Hello" ]} : gmap string (option string)) !! site_a
      = Some (Some old) /\
    old <> EmptyString /\
    result (get_page_content (the_world "<p>World</p>" Delivered) site_a)
      = Return (Some new) /\
    new <> old.
Proof.
  apply (notification_only_for_detected_change cfg
           (the_world "<p>World</p>" Delivered) {[ site_a := Some "Hello" ]} site_a).
  vm_compute. discriminate.
Defined.

Lemma send_email_none_instance :
  exists e,
    send_email cfg (the_world "<p>World</p>" Delivered) site_a None (Some "World")
      = ([], Raise e) /\
    exn_cls e = TypeError.
Proof.
  apply (send_email_none_raises cfg (the_world "<p>World</p>" Delivered)
           site_a None (Some "World")).
  left. reflexivity.
Defined.

Lemma vanished_page_instance :
  exists m1 m2,
    result (updated_websites cfg blank_world {[ site_a := Some "Hello" ]}) = Return m1 /\
    m1 !! site_a = Some (Some EmptyString) /\
    result (updated_websites cfg (the_world "<p>Hello</p>" Delivered) m1) = Return m2 /\
    notifications_of site_a
      (trace (updated_websites cfg (the_world "<p>Hello</p>" Delivered) m1)) = [].
Proof.
  destruct (vanished_page_returns_silently cfg blank_world
              (the_world "<p>Hello</p>" Delivered)
              {[ site_a := Some "Hello" ]} site_a "Hello" "Hello")
    as (m1 & m2 & H1 & H2 & _ & H3 & _ & H4).
  - vm_compute. reflexivity.
  - discriminate.
  - vm_compute. reflexivity.
  - vm_compute. reflexivity.
  - exists m1, m2. by repeat split.
Defined.

Lemma outage_instance :
  exists m1 m2,
    result (updated_websites cfg (the_world "<p>Hello</p>" Delivered)
              {[ site_b := Some "X" ]}) = Return m1 /\
    m1 !! site_b = Some (Some "X") /\
    result (updated_websites cfg
              (with_network (the_world "<p>Hello</p>" Delivered) site_b
                 (ok "<p>World</p>")) m1) = Return m2 /\
    m2 !! site_b = Some (Some "World").
Proof.
  destruct (outage_keeps_baseline cfg (the_world "<p>Hello</p>" Delivered)
              (with_network (the_world "<p>Hello</p>" Delivered) site_b
                 (ok "<p>World</p>"))
              {[ site_b := Some "X" ]} site_b "X" "World")
    as (m1 & m2 & H1 & H2 & H3 & H4 & _).
  - vm_compute. reflexivity.
  - discriminate.
  - vm_compute. reflexivity.
  - vm_compute. reflexivity.
  - discriminate.
  - exists m1, m2. by repeat split.
Defined.


Lemma blank_child_instance :
  Soup.get_text (Soup.Tag "div" [] ([Soup.NavigableString "a"]
                                     ++ Soup.Comment "x" :: [Soup.NavigableString "b"]))
    = Soup.get_text (Soup.Tag "div" [] ([Soup.NavigableString "a"]
                                         ++ [Soup.NavigableString "b"])).
Proof.
  apply (get_text_ignores_blank_child "div" [] [Soup.NavigableString "a"]
           [Soup.NavigableString "b"] (Soup.Comment "x")).
  reflexivity.
Defined.

Lemma equal_excerpts_instance :
  exists delivered lv text,
    send_email cfg (the_world "<p>World</p>" Delivered) site_a
      (Some (shared_prefix +:+ "old tail")) (Some (shared_prefix +:+ "new tail"))
      = ([SmtpSession site_a
            (notification cfg site_a "2024-01-01 00:00:00" shared_prefix shared_prefix)
            delivered;
          Log lv (Some site_a) text],
         Return tt).
Proof.
  apply (long_pages_show_equal_excerpts cfg (the_world "<p>World</p>" Delivered)
           site_a shared_prefix "old tail" "new tail").
  vm_compute. reflexivity.
Defined.


End MoreInstances.
